(** * coinmcp7 MCP server: the tool handlers of [server.py]

    [server.py] exposes 27 CoinMarketCap REST endpoints as tools.  Every tool
    is an [async def] with the same body: read the API key, build the [params]
    dictionary from the arguments, drop the [None] entries, build the
    authentication headers, issue one [requests.get], call
    [raise_for_status], return [response.json()]; any [Exception] raised in
    between is logged and turned into [{"error": ..., "endpoint": ...}].

    The embedding keeps that shape.  Python values, dictionaries and
    exceptions are modelled in [Py]; the effects of a handler (the outbound
    call, the log line, a raised exception) live in a small state and error
    monad; the [requests] calls are in module [requests]; each tool is a
    descriptor transcribed from its signature and its [params] literal, and
    [handler] is the common body. *)

From Stdlib Require Import ZArith String Ascii List Bool Lia DecimalString.
Import ListNotations.

Local Open Scope string_scope.
Local Open Scope list_scope.

(* ------------------------------------------------------------------ *)
(** ** Python values *)

Module Py.

(** The values a tool argument can hold.  A float is carried by its [repr]
    text, which is the only thing [str] and the URL encoder read of it. *)
Inductive PyVal : Type :=
| VNone
| VBool (b : bool)
| VInt (z : Z)
| VFloat (repr : string)
| VStr (s : string).

Definition is_none (v : PyVal) : bool :=
  match v with VNone => true | _ => false end.


(** [str(v)] *)
Definition str (v : PyVal) : string :=
  match v with
  | VNone => "None"
  | VBool true => "True"
  | VBool false => "False"
  | VInt z => NilZero.string_of_int (Z.to_int z)
  | VFloat repr => repr
  | VStr s => s
  end.

(** [s.lower()], on the ASCII letters. *)
Definition lower_ascii (c : ascii) : ascii :=
  let n := N_of_ascii c in
  if ((65 <=? n) && (n <=? 90))%N then ascii_of_N (n + 32) else c.

Fixpoint lower (s : string) : string :=
  match s with
  | EmptyString => EmptyString
  | String c s' => String (lower_ascii c) (lower s')
  end.

(** Instances of [Exception].  The handlers catch with [except Exception],
    which matches every inhabitant of this type; [exn_str e] is [str(e)]. *)
Inductive ExnClass : Type :=
| Timeout
| ConnectionError
| HTTPError
| JSONDecodeError
| OtherException (cls : string).

Record PyExn : Type := mkExn { exn_class : ExnClass; exn_str : string }.

(** What [response.json()] yields and what a handler returns. *)
#[local] Set Warnings "-register-all".
Inductive JSON : Type :=
| JNull
| JBool (b : bool)
| JInt (z : Z)
| JFloat (repr : string)
| JStr (s : string)
| JArr (items : list JSON)
| JObj (fields : list (string * JSON)).

(** *** Dictionaries

    A [dict] is its list of items in insertion order (the order in which
    [requests] writes the query string). *)
Definition Dict (V : Type) : Type := list (string * V).

Definition keys {V} (d : Dict V) : list string := map fst d.

Fixpoint dict_get {V} (d : Dict V) (k : string) : option V :=
  match d with
  | [] => None
  | (k', v) :: d' => if String.eqb k' k then Some v else dict_get d' k
  end.

(** [d[k] = v]: overwrite in place when the key exists, append otherwise. *)
Fixpoint dict_set {V} (d : Dict V) (k : string) (v : V) : Dict V :=
  match d with
  | [] => [(k, v)]
  | (k', v') :: d' =>
      if String.eqb k' k then (k', v) :: d' else (k', v') :: dict_set d' k v
  end.

(** A dict display [{k1: v1, ..., kn: vn}] inserts its items left to right. *)
Definition dict_literal {V} (items : list (string * V)) : Dict V :=
  fold_left (fun d kv => dict_set d (fst kv) (snd kv)) items [].

(** [{k: v for k, v in d.items() if v is not None}] *)
Definition drop_none (d : Dict PyVal) : Dict PyVal :=
  filter (fun kv => negb (is_none (snd kv))) d.

End Py.
Import Py.

(* ------------------------------------------------------------------ *)
(** ** Effects of a handler *)

Inductive Method : Type := GET.

(** The arguments of one [requests.get(url, params=, headers=, timeout=)]. *)
Record Request : Type := mkRequest {
  req_method : Method;
  req_url : string;
  req_params : Dict PyVal;
  req_headers : Dict string;
  req_timeout : Z
}.

(** What a handler leaves behind: the outbound calls it made and the lines it
    logged, oldest first. *)
Record State : Type := mkState {
  net_log : list Request;
  err_log : list string
}.

Inductive Res (A : Type) : Type :=
| Ret (a : A)
| Raise (e : PyExn).
Arguments Ret {A} a.
Arguments Raise {A} e.

Definition M (A : Type) : Type := State -> Res A * State.

Definition ret {A} (a : A) : M A := fun s => (Ret a, s).

Definition raise {A} (e : PyExn) : M A := fun s => (Raise e, s).

Definition bind {A B} (m : M A) (k : A -> M B) : M B :=
  fun s =>
    match m s with
    | (Ret a, s') => k a s'
    | (Raise e, s') => (Raise e, s')
    end.

(** [try: body  except Exception as e: handler e] *)
Definition try_except {A} (body : M A) (handler : PyExn -> M A) : M A :=
  fun s =>
    match body s with
    | (Ret a, s') => (Ret a, s')
    | (Raise e, s') => handler e s'
    end.

Notation "x <- m ;; k" := (bind m (fun x => k))
  (at level 61, m at next level, right associativity).
Notation "m ;;; k" := (bind m (fun _ => k))
  (at level 61, right associativity).

(** [logger.error(line)] *)
Definition logger_error (line : string) : M unit :=
  fun s => (Ret tt, {| net_log := net_log s; err_log := err_log s ++ [line] |}).

(* ------------------------------------------------------------------ *)
(** ** The [requests] library, as the handlers use it *)

Module requests.

(** A response: status line, final URL, and the outcome of decoding the
    body as JSON. *)
Record Response : Type := mkResponse {
  status_code : Z;
  reason : string;
  url : string;
  json_outcome : PyExn + JSON
}.

(** The remote side: what a call yields, a response or a raised exception
    (time-out, connection failure, ...). *)
Definition Upstream : Type := Request -> PyExn + Response.

(** [requests.get(url, params=params, headers=headers, timeout=timeout)] *)
Definition get (up : Upstream) (url : string) (params : Dict PyVal)
           (headers : Dict string) (timeout : Z) : M Response :=
  fun s =>
    let req := mkRequest GET url params headers timeout in
    let s' := {| net_log := net_log s ++ [req]; err_log := err_log s |} in
    match up req with
    | inl e => (Raise e, s')
    | inr response => (Ret response, s')
    end.

(** The message [raise_for_status] builds: empty unless the status is 4xx
    or 5xx. *)
Definition http_error_msg (r : Response) : string :=
  let sc := status_code r in
  if ((400 <=? sc) && (sc <? 500))%Z then
    (str (VInt sc) ++ " Client Error: " ++ reason r ++ " for url: " ++ url r)%string
  else if ((500 <=? sc) && (sc <? 600))%Z then
    (str (VInt sc) ++ " Server Error: " ++ reason r ++ " for url: " ++ url r)%string
  else "".

(** [response.raise_for_status()]: raises [HTTPError] when a message was
    built. *)
Definition raise_for_status (r : Response) : M unit :=
  match http_error_msg r with
  | EmptyString => ret tt
  | msg => raise (mkExn HTTPError msg)
  end.

(** [response.json()] *)
Definition json (r : Response) : M JSON :=
  match json_outcome r with
  | inl e => raise e
  | inr j => ret j
  end.

End requests.
Import requests.

(* ------------------------------------------------------------------ *)
(** ** Tool descriptors *)

Inductive BaseType : Type := TStr | TInt | TFloat | TBool.

(** The annotation of a parameter: [T] or [Optional[T]]. *)
Inductive Annot : Type :=
| Plain (t : BaseType)
| Optional (t : BaseType).

(** How the [params] literal mentions the argument: as it is, or as
    [str(x).lower()]. *)
Inductive ParamExpr : Type := Raw | StrLower.

Record Param : Type := param {
  p_name : string;
  p_annot : Annot;
  p_default : PyVal;
  p_expr : ParamExpr
}.

(** One tool: its name, the path after the API host, its keyword parameters
    in declaration order (which is also the order of the [params] literal),
    and whether the body has the [is not None] comprehension (the three
    tools without parameters do not). *)
Record Tool : Type := mkTool {
  t_name : string;
  t_path : string;
  t_params : list Param;
  t_filtered : bool
}.

Definition declared_names (t : Tool) : list string := map p_name (t_params t).

(** ** The common handler body *)

Definition API_HOST : string := "https://pro-api.coinmarketcap.com".

(** The MCP context of an invocation, reduced to what [get_active_api_key]
    reads from it. *)
Record Context : Type := mkContext { active_api_key : option string }.

Definition get_active_api_key (context : Context) : option string :=
  active_api_key context.

(** [if api_key:] *)
Definition truthy (api_key : option string) : bool :=
  match api_key with
  | None => false
  | Some EmptyString => false
  | Some _ => true
  end.

(** The keyword arguments of a call, and the value a parameter is bound to:
    the supplied one, else the declared default. *)
Definition Kwargs : Type := Dict PyVal.

Definition bound (kwargs : Kwargs) (name : string) (default : PyVal) : PyVal :=
  match dict_get kwargs name with
  | Some v => v
  | None => default
  end.

Definition arg_value (kwargs : Kwargs) (p : Param) : PyVal :=
  bound kwargs (p_name p) (p_default p).

Definition eval_expr (e : ParamExpr) (v : PyVal) : PyVal :=
  match e with
  | Raw => v
  | StrLower => VStr (lower (str v))
  end.

Definition param_item (kwargs : Kwargs) (p : Param) : string * PyVal :=
  (p_name p, eval_expr (p_expr p) (arg_value kwargs p)).

(** [params = {...}] followed, where present, by
    [params = {k: v for k, v in params.items() if v is not None}]. *)
Definition build_params (t : Tool) (kwargs : Kwargs) : Dict PyVal :=
  let params := dict_literal (map (param_item kwargs) (t_params t)) in
  if t_filtered t then drop_none params else params.

(** [headers = {}] and the three assignments under [if api_key:]. *)
Definition build_headers (api_key : option string) : Dict string :=
  let headers := [] in
  match api_key with
  | Some key =>
      if truthy api_key then
        let headers := dict_set headers "X-CMC_PRO_API_KEY" key in
        let headers := dict_set headers "Authorization" ("Bearer " ++ key)%string in
        let headers := dict_set headers "X-API-Key" key in
        headers
      else headers
  | None => headers
  end.

(** [{"error": str(e), "endpoint": path}] *)
Definition error_envelope (e : PyExn) (path : string) : JSON :=
  JObj [("error", JStr (exn_str e)); ("endpoint", JStr path)].

(** The suite under [try:]. *)
Definition handler_body (up : Upstream) (t : Tool) (api_key : option string)
           (kwargs : Kwargs) : M JSON :=
  let url := (API_HOST ++ t_path t)%string in
  let params := build_params t kwargs in
  let headers := build_headers api_key in
  response <- requests.get up url params headers 30 ;;
  raise_for_status response ;;;
  requests.json response.

(** The suite under [except Exception as e:]. *)
Definition except_clause (t : Tool) (e : PyExn) : M JSON :=
  logger_error ("Error in " ++ t_name t ++ ": " ++ exn_str e)%string ;;;
  ret (error_envelope e (t_path t)).

Definition handler (up : Upstream) (t : Tool) (context : Context)
           (kwargs : Kwargs) : M JSON :=
  let api_key := get_active_api_key context in
  try_except (handler_body up t api_key kwargs) (except_clause t).

(* ------------------------------------------------------------------ *)
(** ** The catalog

    One descriptor per [@mcp.tool()] function, in source order: the keyword
    parameters with annotation and default, the expression the [params]
    literal uses for each, and the endpoint path (the URL of the call is
    [API_HOST] followed by it, and it is the ["endpoint"] of the error
    dictionary). *)

(** [coinmarketcap_id_map], lines 114-188: GET /v1/cryptocurrency/map. *)
Definition coinmarketcap_id_map : Tool :=
  {| t_name := "coinmarketcap_id_map";
     t_path := "/v1/cryptocurrency/map";
     t_params :=
       [ param "listing_status" (Plain TStr) (VStr "active") Raw;
         param "start" (Plain TInt) (VInt 1) Raw;
         param "limit" (Optional TInt) VNone Raw;
         param "sort" (Plain TStr) (VStr "id") Raw;
         param "symbol" (Optional TStr) VNone Raw;
         param "aux" (Plain TStr) (VStr "platform,first_historical_data,last_historical_data,is_active") Raw ];
     t_filtered := true |}.

(** [exchange_assets], lines 208-263: GET /v1/exchange/assets. *)
Definition exchange_assets : Tool :=
  {| t_name := "exchange_assets";
     t_path := "/v1/exchange/assets";
     t_params :=
       [ param "id" (Optional TStr) VNone Raw ];
     t_filtered := true |}.

(** [coinmarketcap_id_map_10a0], lines 283-360: GET /v1/exchange/map. *)
Definition coinmarketcap_id_map_10a0 : Tool :=
  {| t_name := "coinmarketcap_id_map_10a0";
     t_path := "/v1/exchange/map";
     t_params :=
       [ param "listing_status" (Plain TStr) (VStr "active") Raw;
         param "slug" (Optional TStr) VNone Raw;
         param "start" (Plain TInt) (VInt 1) Raw;
         param "limit" (Optional TInt) VNone Raw;
         param "sort" (Plain TStr) (VStr "id") Raw;
         param "aux" (Plain TStr) (VStr "first_historical_data,last_historical_data,is_active") Raw;
         param "crypto_id" (Optional TStr) VNone Raw ];
     t_filtered := true |}.

(** [coinmarketcap_id_map_0es7], lines 380-448: GET /v1/fiat/map. *)
Definition coinmarketcap_id_map_0es7 : Tool :=
  {| t_name := "coinmarketcap_id_map_0es7";
     t_path := "/v1/fiat/map";
     t_params :=
       [ param "start" (Plain TInt) (VInt 1) Raw;
         param "limit" (Optional TInt) VNone Raw;
         param "sort" (Plain TStr) (VStr "id") Raw;
         param "include_metals" (Plain TBool) (VBool false) StrLower ];
     t_filtered := true |}.

(** [key_info], lines 468-513: GET /v1/key/info. *)
Definition key_info : Tool :=
  {| t_name := "key_info";
     t_path := "/v1/key/info";
     t_params := [];
     t_filtered := false |}.

(** [postman_conversion_v1], lines 533-578: GET /v1/tools/postman. *)
Definition postman_conversion_v1 : Tool :=
  {| t_name := "postman_conversion_v1";
     t_path := "/v1/tools/postman";
     t_params := [];
     t_filtered := false |}.

(** [cmc_crypto_fear_and_greed_historical], lines 598-656: GET /v3/fear-and-greed/historical. *)
Definition cmc_crypto_fear_and_greed_historical : Tool :=
  {| t_name := "cmc_crypto_fear_and_greed_historical";
     t_path := "/v3/fear-and-greed/historical";
     t_params :=
       [ param "start" (Plain TInt) (VInt 1) Raw;
         param "limit" (Plain TInt) (VInt 50) Raw ];
     t_filtered := true |}.

(** [cmc_crypto_fear_and_greed_latest], lines 676-721: GET /v3/fear-and-greed/latest. *)
Definition cmc_crypto_fear_and_greed_latest : Tool :=
  {| t_name := "cmc_crypto_fear_and_greed_latest";
     t_path := "/v3/fear-and-greed/latest";
     t_params := [];
     t_filtered := false |}.

(** [listings_latest], lines 741-878: GET /v1/cryptocurrency/listings/latest. *)
Definition listings_latest : Tool :=
  {| t_name := "listings_latest";
     t_path := "/v1/cryptocurrency/listings/latest";
     t_params :=
       [ param "start" (Plain TInt) (VInt 1) Raw;
         param "limit" (Plain TInt) (VInt 100) Raw;
         param "price_min" (Optional TFloat) VNone Raw;
         param "price_max" (Optional TFloat) VNone Raw;
         param "market_cap_min" (Optional TFloat) VNone Raw;
         param "market_cap_max" (Optional TFloat) VNone Raw;
         param "volume_24h_min" (Optional TFloat) VNone Raw;
         param "volume_24h_max" (Optional TFloat) VNone Raw;
         param "circulating_supply_min" (Optional TFloat) VNone Raw;
         param "circulating_supply_max" (Optional TFloat) VNone Raw;
         param "percent_change_24h_min" (Optional TFloat) VNone Raw;
         param "percent_change_24h_max" (Optional TFloat) VNone Raw;
         param "self_reported_circulating_supply_min" (Optional TFloat) VNone Raw;
         param "self_reported_circulating_supply_max" (Optional TFloat) VNone Raw;
         param "self_reported_market_cap_min" (Optional TFloat) VNone Raw;
         param "self_reported_market_cap_max" (Optional TFloat) VNone Raw;
         param "unlocked_market_cap_min" (Optional TFloat) VNone Raw;
         param "unlocked_market_cap_max" (Optional TFloat) VNone Raw;
         param "unlocked_circulating_supply_min" (Optional TFloat) VNone Raw;
         param "unlocked_circulating_supply_max" (Optional TFloat) VNone Raw;
         param "convert" (Optional TStr) VNone Raw;
         param "convert_id" (Optional TStr) VNone Raw;
         param "sort" (Plain TStr) (VStr "market_cap") Raw;
         param "sort_dir" (Optional TStr) VNone Raw;
         param "cryptocurrency_type" (Plain TStr) (VStr "all") Raw;
         param "tag" (Plain TStr) (VStr "all") Raw;
         param "aux" (Plain TStr) (VStr "num_market_pairs,cmc_rank,date_added,tags,platform,max_supply,circulating_supply,total_supply") Raw ];
     t_filtered := true |}.

(** [listings_new], lines 898-965: GET /v1/cryptocurrency/listings/new. *)
Definition listings_new : Tool :=
  {| t_name := "listings_new";
     t_path := "/v1/cryptocurrency/listings/new";
     t_params :=
       [ param "start" (Plain TInt) (VInt 1) Raw;
         param "limit" (Plain TInt) (VInt 100) Raw;
         param "convert" (Optional TStr) VNone Raw;
         param "convert_id" (Optional TStr) VNone Raw;
         param "sort_dir" (Optional TStr) VNone Raw ];
     t_filtered := true |}.

(** [trending_gainers_losers], lines 985-1062: GET /v1/cryptocurrency/trending/gainers-losers. *)
Definition trending_gainers_losers : Tool :=
  {| t_name := "trending_gainers_losers";
     t_path := "/v1/cryptocurrency/trending/gainers-losers";
     t_params :=
       [ param "start" (Plain TInt) (VInt 1) Raw;
         param "limit" (Plain TInt) (VInt 100) Raw;
         param "time_period" (Plain TStr) (VStr "24h") Raw;
         param "convert" (Optional TStr) VNone Raw;
         param "convert_id" (Optional TStr) VNone Raw;
         param "sort" (Plain TStr) (VStr "percent_change_24h") Raw;
         param "sort_dir" (Optional TStr) VNone Raw ];
     t_filtered := true |}.

(** [trending_latest], lines 1082-1153: GET /v1/cryptocurrency/trending/latest. *)
Definition trending_latest : Tool :=
  {| t_name := "trending_latest";
     t_path := "/v1/cryptocurrency/trending/latest";
     t_params :=
       [ param "start" (Plain TInt) (VInt 1) Raw;
         param "limit" (Plain TInt) (VInt 100) Raw;
         param "time_period" (Plain TStr) (VStr "24h") Raw;
         param "convert" (Optional TStr) VNone Raw;
         param "convert_id" (Optional TStr) VNone Raw ];
     t_filtered := true |}.

(** [trending_most_visited], lines 1173-1244: GET /v1/cryptocurrency/trending/most-visited. *)
Definition trending_most_visited : Tool :=
  {| t_name := "trending_most_visited";
     t_path := "/v1/cryptocurrency/trending/most-visited";
     t_params :=
       [ param "start" (Plain TInt) (VInt 1) Raw;
         param "limit" (Plain TInt) (VInt 100) Raw;
         param "time_period" (Plain TStr) (VStr "24h") Raw;
         param "convert" (Optional TStr) VNone Raw;
         param "convert_id" (Optional TStr) VNone Raw ];
     t_filtered := true |}.

(** [market_pairs_latest], lines 1264-1353: GET /v1/exchange/market-pairs/latest. *)
Definition market_pairs_latest : Tool :=
  {| t_name := "market_pairs_latest";
     t_path := "/v1/exchange/market-pairs/latest";
     t_params :=
       [ param "id" (Optional TStr) VNone Raw;
         param "slug" (Optional TStr) VNone Raw;
         param "start" (Plain TInt) (VInt 1) Raw;
         param "limit" (Plain TInt) (VInt 100) Raw;
         param "aux" (Plain TStr) (VStr "num_market_pairs,category,fee_type") Raw;
         param "matched_id" (Optional TStr) VNone Raw;
         param "matched_symbol" (Optional TStr) VNone Raw;
         param "category" (Plain TStr) (VStr "all") Raw;
         param "fee_type" (Plain TStr) (VStr "all") Raw;
         param "convert" (Optional TStr) VNone Raw;
         param "convert_id" (Optional TStr) VNone Raw ];
     t_filtered := true |}.

(** [quotes_historical], lines 1373-1453: GET /v1/exchange/quotes/historical. *)
Definition quotes_historical : Tool :=
  {| t_name := "quotes_historical";
     t_path := "/v1/exchange/quotes/historical";
     t_params :=
       [ param "id" (Optional TStr) VNone Raw;
         param "slug" (Optional TStr) VNone Raw;
         param "time_start" (Optional TStr) VNone Raw;
         param "time_end" (Optional TStr) VNone Raw;
         param "count" (Plain TFloat) (VInt 10) Raw;
         param "interval" (Plain TStr) (VStr "5m") Raw;
         param "convert" (Optional TStr) VNone Raw;
         param "convert_id" (Optional TStr) VNone Raw ];
     t_filtered := true |}.

(** [quotes_latest], lines 1473-1544: GET /v1/exchange/quotes/latest. *)
Definition quotes_latest : Tool :=
  {| t_name := "quotes_latest";
     t_path := "/v1/exchange/quotes/latest";
     t_params :=
       [ param "id" (Optional TStr) VNone Raw;
         param "slug" (Optional TStr) VNone Raw;
         param "convert" (Optional TStr) VNone Raw;
         param "convert_id" (Optional TStr) VNone Raw;
         param "aux" (Plain TStr) (VStr "num_market_pairs,traffic_score,rank,exchange_score,liquidity_score,effective_liquidity_24h") Raw ];
     t_filtered := true |}.

(** [quotes_historical_k8s0], lines 1564-1641: GET /v1/global-metrics/quotes/historical. *)
Definition quotes_historical_k8s0 : Tool :=
  {| t_name := "quotes_historical_k8s0";
     t_path := "/v1/global-metrics/quotes/historical";
     t_params :=
       [ param "time_start" (Optional TStr) VNone Raw;
         param "time_end" (Optional TStr) VNone Raw;
         param "count" (Plain TFloat) (VInt 10) Raw;
         param "interval" (Plain TStr) (VStr "1d") Raw;
         param "convert" (Optional TStr) VNone Raw;
         param "convert_id" (Optional TStr) VNone Raw;
         param "aux" (Plain TStr) (VStr "btc_dominance,eth_dominance,active_cryptocurrencies,active_exchanges,active_market_pairs,total_volume_24h,total_volume_24h_reported,altcoin_market_cap,altcoin_volume_24h,altcoin_volume_24h_reported") Raw ];
     t_filtered := true |}.

(** [quotes_latest_d46k], lines 1661-1715: GET /v1/global-metrics/quotes/latest. *)
Definition quotes_latest_d46k : Tool :=
  {| t_name := "quotes_latest_d46k";
     t_path := "/v1/global-metrics/quotes/latest";
     t_params :=
       [ param "convert" (Optional TStr) VNone Raw;
         param "convert_id" (Optional TStr) VNone Raw ];
     t_filtered := true |}.

(** [market_pairs_latest_v2], lines 1735-1833: GET /v2/cryptocurrency/market-pairs/latest. *)
Definition market_pairs_latest_v2 : Tool :=
  {| t_name := "market_pairs_latest_v2";
     t_path := "/v2/cryptocurrency/market-pairs/latest";
     t_params :=
       [ param "id" (Optional TStr) VNone Raw;
         param "slug" (Optional TStr) VNone Raw;
         param "symbol" (Optional TStr) VNone Raw;
         param "start" (Plain TInt) (VInt 1) Raw;
         param "limit" (Plain TInt) (VInt 100) Raw;
         param "sort_dir" (Plain TStr) (VStr "desc") Raw;
         param "sort" (Plain TStr) (VStr "volume_24h_strict") Raw;
         param "aux" (Plain TStr) (VStr "num_market_pairs,category,fee_type") Raw;
         param "matched_id" (Optional TStr) VNone Raw;
         param "matched_symbol" (Optional TStr) VNone Raw;
         param "category" (Plain TStr) (VStr "all") Raw;
         param "fee_type" (Plain TStr) (VStr "all") Raw;
         param "convert" (Optional TStr) VNone Raw;
         param "convert_id" (Optional TStr) VNone Raw ];
     t_filtered := true |}.

(** [ohlcv_historical_v2], lines 1853-1942: GET /v2/cryptocurrency/ohlcv/historical. *)
Definition ohlcv_historical_v2 : Tool :=
  {| t_name := "ohlcv_historical_v2";
     t_path := "/v2/cryptocurrency/ohlcv/historical";
     t_params :=
       [ param "id" (Optional TStr) VNone Raw;
         param "slug" (Optional TStr) VNone Raw;
         param "symbol" (Optional TStr) VNone Raw;
         param "time_period" (Plain TStr) (VStr "daily") Raw;
         param "time_start" (Optional TStr) VNone Raw;
         param "time_end" (Optional TStr) VNone Raw;
         param "count" (Plain TFloat) (VInt 10) Raw;
         param "interval" (Plain TStr) (VStr "daily") Raw;
         param "convert" (Optional TStr) VNone Raw;
         param "convert_id" (Optional TStr) VNone Raw;
         param "skip_invalid" (Plain TBool) (VBool true) StrLower ];
     t_filtered := true |}.

(** [ohlcv_latest_v2], lines 1962-2033: GET /v2/cryptocurrency/ohlcv/latest. *)
Definition ohlcv_latest_v2 : Tool :=
  {| t_name := "ohlcv_latest_v2";
     t_path := "/v2/cryptocurrency/ohlcv/latest";
     t_params :=
       [ param "id" (Optional TStr) VNone Raw;
         param "symbol" (Optional TStr) VNone Raw;
         param "convert" (Optional TStr) VNone Raw;
         param "convert_id" (Optional TStr) VNone Raw;
         param "skip_invalid" (Plain TBool) (VBool true) StrLower ];
     t_filtered := true |}.

(** [price_performance_stats_v2], lines 2053-2130: GET /v2/cryptocurrency/price-performance-stats/latest. *)
Definition price_performance_stats_v2 : Tool :=
  {| t_name := "price_performance_stats_v2";
     t_path := "/v2/cryptocurrency/price-performance-stats/latest";
     t_params :=
       [ param "id" (Optional TStr) VNone Raw;
         param "slug" (Optional TStr) VNone Raw;
         param "symbol" (Optional TStr) VNone Raw;
         param "time_period" (Plain TStr) (VStr "all_time") Raw;
         param "convert" (Optional TStr) VNone Raw;
         param "convert_id" (Optional TStr) VNone Raw;
         param "skip_invalid" (Plain TBool) (VBool true) StrLower ];
     t_filtered := true |}.

(** [quotes_historical_v2], lines 2150-2236: GET /v2/cryptocurrency/quotes/historical. *)
Definition quotes_historical_v2 : Tool :=
  {| t_name := "quotes_historical_v2";
     t_path := "/v2/cryptocurrency/quotes/historical";
     t_params :=
       [ param "id" (Optional TStr) VNone Raw;
         param "symbol" (Optional TStr) VNone Raw;
         param "time_start" (Optional TStr) VNone Raw;
         param "time_end" (Optional TStr) VNone Raw;
         param "count" (Plain TFloat) (VInt 10) Raw;
         param "interval" (Plain TStr) (VStr "5m") Raw;
         param "convert" (Optional TStr) VNone Raw;
         param "convert_id" (Optional TStr) VNone Raw;
         param "aux" (Plain TStr) (VStr "price,volume,market_cap,circulating_supply,total_supply,quote_timestamp,is_active,is_fiat") Raw;
         param "skip_invalid" (Plain TBool) (VBool true) StrLower ];
     t_filtered := true |}.

(** [quotes_latest_v2], lines 2256-2333: GET /v2/cryptocurrency/quotes/latest. *)
Definition quotes_latest_v2 : Tool :=
  {| t_name := "quotes_latest_v2";
     t_path := "/v2/cryptocurrency/quotes/latest";
     t_params :=
       [ param "id" (Optional TStr) VNone Raw;
         param "slug" (Optional TStr) VNone Raw;
         param "symbol" (Optional TStr) VNone Raw;
         param "convert" (Optional TStr) VNone Raw;
         param "convert_id" (Optional TStr) VNone Raw;
         param "aux" (Plain TStr) (VStr "num_market_pairs,cmc_rank,date_added,tags,platform,max_supply,circulating_supply,total_supply,is_active,is_fiat") Raw;
         param "skip_invalid" (Plain TBool) (VBool true) StrLower ];
     t_filtered := true |}.

(** [quotes_historical_v3], lines 2353-2439: GET /v3/cryptocurrency/quotes/historical. *)
Definition quotes_historical_v3 : Tool :=
  {| t_name := "quotes_historical_v3";
     t_path := "/v3/cryptocurrency/quotes/historical";
     t_params :=
       [ param "id" (Optional TStr) VNone Raw;
         param "symbol" (Optional TStr) VNone Raw;
         param "time_start" (Optional TStr) VNone Raw;
         param "time_end" (Optional TStr) VNone Raw;
         param "count" (Plain TFloat) (VInt 10) Raw;
         param "interval" (Plain TStr) (VStr "5m") Raw;
         param "convert" (Optional TStr) VNone Raw;
         param "convert_id" (Optional TStr) VNone Raw;
         param "aux" (Plain TStr) (VStr "price,volume,market_cap,circulating_supply,total_supply,quote_timestamp,is_active,is_fiat") Raw;
         param "skip_invalid" (Plain TBool) (VBool true) StrLower ];
     t_filtered := true |}.

(** [fcas_listings_latest_deprecated], lines 2459-2524: GET /v1/partners/flipside-crypto/fcas/listings/latest. *)
Definition fcas_listings_latest_deprecated : Tool :=
  {| t_name := "fcas_listings_latest_deprecated";
     t_path := "/v1/partners/flipside-crypto/fcas/listings/latest";
     t_params :=
       [ param "start" (Plain TInt) (VInt 1) Raw;
         param "limit" (Plain TInt) (VInt 100) Raw;
         param "aux" (Plain TStr) (VStr "point_change_24h,percent_change_24h") Raw ];
     t_filtered := true |}.

(** [fcas_quotes_latest_deprecated], lines 2544-2612: GET /v1/partners/flipside-crypto/fcas/quotes/latest. *)
Definition fcas_quotes_latest_deprecated : Tool :=
  {| t_name := "fcas_quotes_latest_deprecated";
     t_path := "/v1/partners/flipside-crypto/fcas/quotes/latest";
     t_params :=
       [ param "id" (Optional TStr) VNone Raw;
         param "slug" (Optional TStr) VNone Raw;
         param "symbol" (Optional TStr) VNone Raw;
         param "aux" (Plain TStr) (VStr "point_change_24h,percent_change_24h") Raw ];
     t_filtered := true |}.

Definition catalog : list Tool :=
  [ coinmarketcap_id_map;
    exchange_assets;
    coinmarketcap_id_map_10a0;
    coinmarketcap_id_map_0es7;
    key_info;
    postman_conversion_v1;
    cmc_crypto_fear_and_greed_historical;
    cmc_crypto_fear_and_greed_latest;
    listings_latest;
    listings_new;
    trending_gainers_losers;
    trending_latest;
    trending_most_visited;
    market_pairs_latest;
    quotes_historical;
    quotes_latest;
    quotes_historical_k8s0;
    quotes_latest_d46k;
    market_pairs_latest_v2;
    ohlcv_historical_v2;
    ohlcv_latest_v2;
    price_performance_stats_v2;
    quotes_historical_v2;
    quotes_latest_v2;
    quotes_historical_v3;
    fcas_listings_latest_deprecated;
    fcas_quotes_latest_deprecated ].

(* ------------------------------------------------------------------ *)
(** ** Two handlers written out

    The functions [coinmarketcap_id_map_0es7] (a filtered literal with a
    [str(x).lower()] entry) and [key_info] (no parameter, no comprehension)
    statement by statement, to compare [handler] with. *)

Module Source.

Definition coinmarketcap_id_map_0es7 (up : Upstream) (context : Context)
           (start limit sort include_metals : PyVal) : M JSON :=
  let api_key := get_active_api_key context in
  try_except
    (let url := "https://pro-api.coinmarketcap.com/v1/fiat/map" in
     let params :=
       dict_literal
         [("start", start);
          ("limit", limit);
          ("sort", sort);
          ("include_metals", VStr (lower (str include_metals)))] in
     let params := drop_none params in
     let headers := build_headers api_key in
     response <- requests.get up url params headers 30 ;;
     raise_for_status response ;;;
     requests.json response)
    (fun e =>
       logger_error ("Error in coinmarketcap_id_map_0es7: " ++ exn_str e)%string ;;;
       ret (JObj [("error", JStr (exn_str e)); ("endpoint", JStr "/v1/fiat/map")])).

Definition key_info (up : Upstream) (context : Context) : M JSON :=
  let api_key := get_active_api_key context in
  try_except
    (let url := "https://pro-api.coinmarketcap.com/v1/key/info" in
     let params := dict_literal [] in
     let headers := build_headers api_key in
     response <- requests.get up url params headers 30 ;;
     raise_for_status response ;;;
     requests.json response)
    (fun e =>
       logger_error ("Error in key_info: " ++ exn_str e)%string ;;;
       ret (JObj [("error", JStr (exn_str e)); ("endpoint", JStr "/v1/key/info")])).

End Source.

(* ------------------------------------------------------------------ *)
(** ** Well-formed descriptors

    Facts the Python source has by construction and the proofs use: the
    parameter names of a function are pairwise distinct, the [is not None]
    comprehension is missing only where the literal is empty, and
    [str(x).lower()] is applied exactly to the parameters annotated [bool],
    and those are exactly the parameters whose default is a Boolean. *)

Fixpoint nodupb (l : list string) : bool :=
  match l with
  | [] => true
  | x :: l' => negb (existsb (String.eqb x) l') && nodupb l'
  end.

Definition is_bool_annot (a : Annot) : bool :=
  match a with Plain TBool => true | Optional TBool => true | _ => false end.

Definition is_bool (v : PyVal) : bool :=
  match v with VBool _ => true | _ => false end.

Definition wf_param (p : Param) : bool :=
  match p_expr p with
  | StrLower => is_bool_annot (p_annot p) && is_bool (p_default p)
  | Raw => negb (is_bool_annot (p_annot p)) && negb (is_bool (p_default p))
  end.

Definition wf_tool (t : Tool) : bool :=
  nodupb (declared_names t)
  && (t_filtered t || match t_params t with [] => true | _ => false end)
  && forallb wf_param (t_params t).

(** ** What the claims speak of *)

(** The normalized query map of an invocation: the [params] handed to
    [requests.get]. *)
Definition normalized_query (t : Tool) (kwargs : Kwargs) : Dict PyVal :=
  build_params t kwargs.

(** The one call a handler is expected to make. *)
Definition outbound_request (t : Tool) (context : Context) (kwargs : Kwargs)
  : Request :=
  {| req_method := GET;
     req_url := (API_HOST ++ t_path t)%string;
     req_params := normalized_query t kwargs;
     req_headers := build_headers (get_active_api_key context);
     req_timeout := 30 |}.

(** A value has the shape of the error dictionary: exactly the keys
    ["error"] and ["endpoint"], both holding strings. *)
Definition is_error_envelope (j : JSON) : Prop :=
  exists msg endpoint, j = JObj [("error", JStr msg); ("endpoint", JStr endpoint)].

Definition is_2xx (sc : Z) : bool := ((200 <=? sc) && (sc <? 300))%Z.

(** A declared default as a query value: itself, a Boolean as the lowercase
    text ["true"] or ["false"]. *)
Definition default_value (d : PyVal) : PyVal :=
  match d with
  | VBool b => VStr (if b then "true" else "false")
  | _ => d
  end.

(** The defaults a tool declares, as a query: one entry for every parameter
    whose default is not [None], in declaration order. *)
Definition declared_defaults (t : Tool) : Dict PyVal :=
  flat_map
    (fun p =>
       match p_default p with
       | VNone => []
       | d => [(p_name p, default_value d)]
       end)
    (t_params t).

(** The state after the call [req] was issued, and after the [except]
    clause logged [e]. *)
Definition log_request (req : Request) (s : State) : State :=
  {| net_log := net_log s ++ [req]; err_log := err_log s |}.

Definition log_caught (t : Tool) (e : PyExn) (s : State) : State :=
  {| net_log := net_log s;
     err_log := err_log s ++ [("Error in " ++ t_name t ++ ": " ++ exn_str e)%string] |}.

(** ** Sample invocations *)

Definition fresh : State := {| net_log := []; err_log := [] |}.

Definition with_key : Context := {| active_api_key := Some "k3y" |}.
Definition without_key : Context := {| active_api_key := None |}.

(** An upstream that never answers in time. *)
Definition read_timeout : PyExn :=
  mkExn Timeout "Read timed out. (read timeout=30)".

Definition upstream_timeout : Upstream := fun _ => inl read_timeout.

(** An upstream that answers every call with the given status line and a
    body that decodes to [body]. *)
Definition upstream_answers (sc : Z) (phrase : string) (body : JSON) : Upstream :=
  fun req =>
    inr {| status_code := sc; reason := phrase; url := req_url req;
           json_outcome := inr body |}.

Definition bitcoin_body : JSON :=
  JObj [("data", JObj [("1", JObj [("name", JStr "Bitcoin")])])].

(* ------------------------------------------------------------------ *)
(** ** Process configuration and application setup

    The [# Configuration] block at the top of the module and
    [create_app_with_middleware].  Both read the process environment and
    write to the logger; either can abort the start with [ValueError]. *)

Module os.

(** The process environment. *)
Definition Env : Type := Dict string.

(** [os.getenv(key)] and [os.getenv(key, default)] *)
Definition getenv (env : Env) (key : string) : option string :=
  dict_get env key.

Definition getenv_or (env : Env) (key default : string) : string :=
  match dict_get env key with
  | Some v => v
  | None => default
  end.

End os.

(** [s.upper()], on the ASCII letters. *)
Definition upper_ascii (c : ascii) : ascii :=
  let n := N_of_ascii c in
  if ((97 <=? n) && (n <=? 122))%N then ascii_of_N (n - 32) else c.

Fixpoint upper (s : string) : string :=
  match s with
  | EmptyString => EmptyString
  | String c s' => String (upper_ascii c) (upper s')
  end.

(** [s * n] *)
Fixpoint str_mul (s : string) (n : nat) : string :=
  match n with
  | O => ""
  | S n' => (s ++ str_mul s n')%string
  end.

(** [needle in hay] *)
Fixpoint contains (needle hay : string) : bool :=
  String.prefix needle hay
  || match hay with
     | EmptyString => false
     | String _ hay' => contains needle hay'
     end.

(** [a or b] on optional strings. *)
Definition py_or (a b : option string) : option string :=
  if truthy a then a else b.

Definition ValueError (msg : string) : PyExn :=
  mkExn (OtherException "ValueError") msg.

(** The start-up code runs against the logger alone. *)
Module Boot.

Inductive Level : Type := INFO | WARNING | ERROR.

Record LogRecord : Type := mkLog { level : Level; message : string }.

Definition B (A : Type) : Type := list LogRecord -> Res A * list LogRecord.

Definition ret {A} (a : A) : B A := fun l => (Ret a, l).

Definition raise {A} (e : PyExn) : B A := fun l => (Raise e, l).

Definition bind {A B'} (m : B A) (k : A -> B B') : B B' :=
  fun l =>
    match m l with
    | (Ret a, l') => k a l'
    | (Raise e, l') => (Raise e, l')
    end.

Definition logger_info (msg : string) : B unit :=
  fun l => (Ret tt, l ++ [mkLog INFO msg]).

Definition logger_warning (msg : string) : B unit :=
  fun l => (Ret tt, l ++ [mkLog WARNING msg]).

Definition logger_error (msg : string) : B unit :=
  fun l => (Ret tt, l ++ [mkLog ERROR msg]).

(** A call that returns or raises without logging. *)
Definition lift {A} (r : PyExn + A) : B A :=
  match r with
  | inl e => raise e
  | inr a => ret a
  end.

End Boot.

Notation "x <~ m ;; k" := (Boot.bind m (fun x => k))
  (at level 61, m at next level, right associativity).
Notation "m >>> k" := (Boot.bind m (fun _ => k))
  (at level 61, right associativity).

(** The module globals the block defines. *)
Record Config : Type := mkConfig {
  STAGE : string;
  PORT : Z;
  SERVER_ADDRESS : string;
  API_KEY : option string
}.

(** Lines 54-69.  [py_int] is the built-in [int] on strings. *)
Definition configuration (py_int : string -> PyExn + Z) (env : os.Env)
  : Boot.B Config :=
  let STAGE := upper (os.getenv_or env "STAGE" "MAINNET") in
  PORT <~ Boot.lift (py_int (os.getenv_or env "PORT" "8000")) ;;
  let SERVER_ADDRESS := os.getenv env "SERVER_ADDRESS" in
  match SERVER_ADDRESS with
  | Some address =>
      if negb (truthy SERVER_ADDRESS) then
        Boot.raise (ValueError "SERVER_ADDRESS required for payment protocol")
      else
        let API_KEY := os.getenv env "COINMCP7_API_KEY" in
        (if negb (truthy API_KEY) then
           Boot.logger_warning
             "⚠️  COINMCP7_API_KEY not set - payment required for all requests"
         else Boot.ret tt) >>>
        Boot.logger_info (str_mul "=" 80) >>>
        Boot.logger_info "coinmcp7 MCP Server (FastMCP + D402 Wrapper)" >>>
        Boot.logger_info "API: https://pro-api.coinmarketcap.com/" >>>
        Boot.logger_info ("Payment: " ++ address)%string >>>
        Boot.logger_info
          ("API Key: " ++ (if truthy API_KEY then "✅" else "❌ Payment required"))%string >>>
        Boot.logger_info (str_mul "=" 80) >>>
        Boot.ret (mkConfig STAGE PORT address API_KEY)
  | None =>
      Boot.raise (ValueError "SERVER_ADDRESS required for payment protocol")
  end.

(** [facilitator_url] and [testing_mode] as [create_app_with_middleware]
    reads them. *)
Definition facilitator_url_of (env : os.Env) : option string :=
  py_or (os.getenv env "FACILITATOR_URL") (os.getenv env "D402_FACILITATOR_URL").

Definition testing_mode_of (env : os.Env) : bool :=
  String.eqb (lower (os.getenv_or env "D402_TESTING_MODE" "false")) "true".

Definition is_local_facilitator (facilitator_url : string) : bool :=
  contains "localhost" facilitator_url
  || contains "127.0.0.1" facilitator_url
  || contains "host.docker.internal" facilitator_url.

Record CORSOptions : Type := mkCORS {
  allow_origins : list string;
  allow_credentials : bool;
  allow_methods : list string;
  allow_headers : list string;
  expose_headers : list string
}.

Section AppSetup.

(** From the payment library: the type of the extracted payment
    configurations, [len] on it and the extraction itself; and the
    application FastMCP hands out. *)
Variable Configs : Type.
Variable len : Configs -> Z.
Variable extract_payment_configs_from_mcp : string -> Configs.

Record D402Options : Type := mkD402 {
  tool_payment_configs : Configs;
  server_address : string;
  requires_auth : bool;
  internal_api_key : option string;
  testing_mode : bool;
  facilitator_url : option string;
  facilitator_api_key : option string;
  server_name : string
}.

Inductive Middleware : Type :=
| CORSMiddleware (options : CORSOptions)
| D402PaymentMiddleware (options : D402Options).

(** An application: the [add_middleware] calls made on it and the routes
    registered on it, each in call order. *)
Record App : Type := mkApp {
  added_middleware : list Middleware;
  routes : list (string * list Method)
}.

Variable streamable_http_app : App.

Definition add_middleware (app : App) (m : Middleware) : App :=
  {| added_middleware := added_middleware app ++ [m]; routes := routes app |}.

Definition route (app : App) (path : string) (methods : list Method) : App :=
  {| added_middleware := added_middleware app;
     routes := routes app ++ [(path, methods)] |}.

Definition create_app_with_middleware (cfg : Config) (env : os.Env)
  : Boot.B App :=
  Boot.logger_info "🔧 Creating FastMCP app with middleware..." >>>
  let app := streamable_http_app in
  Boot.logger_info "✅ Got FastMCP Starlette app" >>>
  let tool_payment_configs :=
    extract_payment_configs_from_mcp (SERVER_ADDRESS cfg) in
  Boot.logger_info
    ("📊 Extracted " ++ str (VInt (len tool_payment_configs))
     ++ " payment configs from @require_payment_for_tool decorators")%string >>>
  let facilitator_url := facilitator_url_of env in
  let operator_key := os.getenv env "MCP_OPERATOR_PRIVATE_KEY" in
  let network := os.getenv_or env "NETWORK" "sepolia" in
  let testing_mode := testing_mode_of env in
  Boot.logger_info (str_mul "=" 60) >>>
  Boot.logger_info "D402 Payment Protocol Configuration:" >>>
  Boot.logger_info ("  Server Address: " ++ SERVER_ADDRESS cfg)%string >>>
  Boot.logger_info ("  Network: " ++ network)%string >>>
  Boot.logger_info
    ("  Operator Key: "
     ++ (if truthy operator_key then "✅ Set" else "❌ Not set"))%string >>>
  Boot.logger_info
    ("  Testing Mode: "
     ++ (if testing_mode then "⚠️  ENABLED (bypasses facilitator)"
         else "✅ DISABLED (uses facilitator)"))%string >>>
  Boot.logger_info (str_mul "=" 60) >>>
  (if negb (truthy facilitator_url) && negb testing_mode then
     Boot.logger_error "❌ FACILITATOR_URL required when testing_mode is disabled!" >>>
     Boot.raise (ValueError "Set FACILITATOR_URL or enable D402_TESTING_MODE=true")
   else Boot.ret tt) >>>
  (match facilitator_url with
   | Some u =>
       if truthy facilitator_url then
         Boot.logger_info ("🌐 FACILITATOR: " ++ u)%string >>>
         if is_local_facilitator u then
           Boot.logger_info "   📍 Using LOCAL facilitator for development"
         else
           Boot.logger_info "   🌍 Using REMOTE facilitator for production"
       else
         Boot.logger_warning "⚠️  D402 Testing Mode - Facilitator bypassed"
   | None =>
       Boot.logger_warning "⚠️  D402 Testing Mode - Facilitator bypassed"
   end) >>>
  Boot.logger_info (str_mul "=" 60) >>>
  let app :=
    add_middleware app
      (CORSMiddleware
         {| allow_origins := ["*"];
            allow_credentials := true;
            allow_methods := ["*"];
            allow_headers := ["*"];
            expose_headers := ["mcp-session-id"] |}) in
  Boot.logger_info "✅ Added CORS middleware (allow all origins, expose mcp-session-id)" >>>
  let app :=
    add_middleware app
      (D402PaymentMiddleware
         {| tool_payment_configs := tool_payment_configs;
            server_address := SERVER_ADDRESS cfg;
            requires_auth := true;
            internal_api_key := API_KEY cfg;
            testing_mode := testing_mode;
            facilitator_url := facilitator_url;
            facilitator_api_key := os.getenv env "D402_FACILITATOR_API_KEY";
            server_name := "coinmcp7-mcp-server" |}) in
  Boot.logger_info "✅ Added D402PaymentMiddleware" >>>
  Boot.logger_info "   - Auth extraction: Enabled" >>>
  Boot.logger_info "   - Dual mode: API key OR payment" >>>
  let app := route app "/health" [GET] in
  Boot.logger_info "✅ Added /health endpoint" >>>
  Boot.ret app.

End AppSetup.

Arguments mkD402 {Configs}.
Arguments tool_payment_configs {Configs}.
Arguments server_address {Configs}.
Arguments requires_auth {Configs}.
Arguments internal_api_key {Configs}.
Arguments testing_mode {Configs}.
Arguments facilitator_url {Configs}.
Arguments facilitator_api_key {Configs}.
Arguments server_name {Configs}.
Arguments CORSMiddleware {Configs}.
Arguments D402PaymentMiddleware {Configs}.
Arguments mkApp {Configs}.
Arguments added_middleware {Configs}.
Arguments routes {Configs}.
Arguments add_middleware {Configs}.
Arguments route {Configs}.
Arguments create_app_with_middleware {Configs}.

(** ** Sample environments *)

Definition plain_int : string -> PyExn + Z :=
  fun s => if String.eqb s "8000" then inr 8000%Z
           else inl (ValueError "invalid literal for int() with base 10").

Definition env_testing : os.Env :=
  [("SERVER_ADDRESS", "0xA11CE"); ("D402_TESTING_MODE", "True")].

Definition env_facilitator : os.Env :=
  [("SERVER_ADDRESS", "0xA11CE"); ("FACILITATOR_URL", "");
   ("D402_FACILITATOR_URL", "http://localhost:9000");
   ("COINMCP7_API_KEY", "k3y")].

Definition env_bare : os.Env := [("SERVER_ADDRESS", "0xA11CE")].

Definition sample_config : Config :=
  {| STAGE := "MAINNET"; PORT := 8000; SERVER_ADDRESS := "0xA11CE";
     API_KEY := Some "k3y" |}.

Definition sample_app : App nat :=
  {| added_middleware := []; routes := [("/mcp", [GET])] |}.

(* ------------------------------------------------------------------ *)
(** ** Redirects

    The handlers leave [allow_redirects] of [requests.get] at its default,
    so the library follows redirects: an answer whose status is one of
    [REDIRECT_STATI] and that names a target in its [Location] header is
    answered with a GET of that target, up to [DEFAULT_REDIRECT_LIMIT]
    times, after which [TooManyRedirects] is raised.  One call of
    [requests.get] can therefore put several requests on the wire; this
    layer sits under an [Upstream] and counts them. *)

Module redirects.












End redirects.
Import redirects.



(* ------------------------------------------------------------------ *)
(** ** Dictionaries *)

Lemma existsb_eqb_In (k : string) (l : list string) :
  existsb (String.eqb k) l = true <-> In k l.
Proof.
  rewrite existsb_exists. split.
  - intros [x [Hin Heq]]. apply String.eqb_eq in Heq. now subst.
  - intros Hin. exists k. split; [assumption | apply String.eqb_refl].
Qed.

Lemma nodupb_NoDup (l : list string) : nodupb l = true -> NoDup l.
Proof.
  induction l as [|x l IH]; simpl; intros H.
  - constructor.
  - apply andb_true_iff in H. destruct H as [Hx Hl].
    constructor; [| now apply IH].
    intros Hin. apply existsb_eqb_In in Hin. rewrite Hin in Hx. discriminate.
Qed.

Lemma dict_set_fresh {V} (d : Dict V) (k : string) (v : V) :
  ~ In k (keys d) -> dict_set d k v = d ++ [(k, v)].
Proof.
  induction d as [|[k' v'] d IH]; simpl; intros Hfresh.
  - reflexivity.
  - destruct (String.eqb k' k) eqn:E.
    + apply String.eqb_eq in E. exfalso. apply Hfresh. now left.
    + f_equal. apply IH. intros Hin. apply Hfresh. now right.
Qed.

Lemma fold_dict_set_fresh {V} (items : list (string * V)) :
  forall acc : Dict V,
    NoDup (keys acc ++ map fst items) ->
    fold_left (fun d kv => dict_set d (fst kv) (snd kv)) items acc = acc ++ items.
Proof.
  induction items as [|[k v] items IH]; intros acc Hnd; simpl.
  - now rewrite app_nil_r.
  - simpl in Hnd. rewrite dict_set_fresh.
    + rewrite IH.
      * now rewrite <- app_assoc.
      * unfold keys. rewrite map_app. simpl. rewrite <- app_assoc. exact Hnd.
    + apply NoDup_remove_2 in Hnd. intros Hin. apply Hnd.
      apply in_or_app. now left.
Qed.

(** A display with pairwise distinct keys is the list of its items. *)
Lemma dict_literal_distinct {V} (items : list (string * V)) :
  NoDup (map fst items) -> dict_literal items = items.
Proof.
  intros Hnd. unfold dict_literal. now rewrite fold_dict_set_fresh.
Qed.

Lemma dict_get_In {V} (d : Dict V) (k : string) (v : V) :
  dict_get d k = Some v -> In (k, v) d.
Proof.
  induction d as [|[k' v'] d IH]; simpl; intros H.
  - discriminate.
  - destruct (String.eqb k' k) eqn:E.
    + apply String.eqb_eq in E. inversion H. subst. now left.
    + right. now apply IH.
Qed.

(* ------------------------------------------------------------------ *)
(** ** The query a handler builds *)

Lemma param_items_names (kwargs : Kwargs) (ps : list Param) :
  map fst (map (param_item kwargs) ps) = map p_name ps.
Proof. rewrite map_map. reflexivity. Qed.

Lemma wf_tool_names (t : Tool) : wf_tool t = true -> NoDup (declared_names t).
Proof.
  unfold wf_tool. intros H.
  apply andb_true_iff in H. destruct H as [H _].
  apply andb_true_iff in H. destruct H as [H _].
  now apply nodupb_NoDup.
Qed.

Lemma wf_tool_filtered (t : Tool) :
  wf_tool t = true -> t_filtered t = true \/ t_params t = [].
Proof.
  unfold wf_tool. intros H.
  apply andb_true_iff in H. destruct H as [H _].
  apply andb_true_iff in H. destruct H as [_ H].
  apply orb_true_iff in H. destruct H as [H | H]; [now left | right].
  now destruct (t_params t).
Qed.

Lemma wf_tool_params (t : Tool) (p : Param) :
  wf_tool t = true -> In p (t_params t) -> wf_param p = true.
Proof.
  unfold wf_tool. intros H Hin.
  apply andb_true_iff in H. destruct H as [_ H].
  rewrite forallb_forall in H. now apply H.
Qed.

(** On a well-formed tool the query is the literal's items without the
    [None] ones. *)
Lemma build_params_items (t : Tool) (kwargs : Kwargs) :
  wf_tool t = true ->
  build_params t kwargs = drop_none (map (param_item kwargs) (t_params t)).
Proof.
  intros Hwf. unfold build_params.
  rewrite dict_literal_distinct
    by (rewrite param_items_names; now apply wf_tool_names).
  destruct (wf_tool_filtered t Hwf) as [Hf | Hnil].
  - now rewrite Hf.
  - rewrite Hnil. simpl. now destruct (t_filtered t).
Qed.

Lemma catalog_wf : forallb wf_tool catalog = true.
Proof. vm_compute. reflexivity. Qed.

Lemma in_catalog_wf (t : Tool) : In t catalog -> wf_tool t = true.
Proof.
  intros Hin. pose proof catalog_wf as H.
  rewrite forallb_forall in H. now apply H.
Qed.

Example catalog_size : length catalog = 27%nat.
Proof. reflexivity. Qed.

Example fiat_map_query :
  normalized_query coinmarketcap_id_map_0es7
    [("limit", VInt 5); ("include_metals", VBool true)] =
  [("start", VInt 1); ("limit", VInt 5); ("sort", VStr "id");
   ("include_metals", VStr "true")].
Proof. reflexivity. Qed.

Example str_lower_samples :
  lower (str (VBool true)) = "true"
  /\ lower (str VNone) = "none"
  /\ str (VInt (-42)) = "-42".
Proof. repeat split. Qed.

(** [handler] on a descriptor is the function the descriptor was read
    from. *)
Lemma handler_coinmarketcap_id_map_0es7
      (up : Upstream) (context : Context) (kwargs : Kwargs) :
  handler up coinmarketcap_id_map_0es7 context kwargs =
  Source.coinmarketcap_id_map_0es7 up context
    (bound kwargs "start" (VInt 1))
    (bound kwargs "limit" VNone)
    (bound kwargs "sort" (VStr "id"))
    (bound kwargs "include_metals" (VBool false)).
Proof. reflexivity. Qed.

Lemma handler_key_info (up : Upstream) (context : Context) (kwargs : Kwargs) :
  handler up key_info context kwargs = Source.key_info up context.
Proof. reflexivity. Qed.

(* ------------------------------------------------------------------ *)
(** ** One run of a handler *)

(** What the [except] clause does with [e] from state [s]. *)
Lemma except_clause_run (t : Tool) (e : PyExn) (s : State) :
  except_clause t e s = (Ret (error_envelope e (t_path t)), log_caught t e s).
Proof. reflexivity. Qed.

(** The [try] suite: the call is logged, and the outcome follows the
    upstream, the status check and the decoding, in that order. *)
Lemma handler_body_run (up : Upstream) (t : Tool) (api_key : option string)
      (kwargs : Kwargs) (s : State) :
  handler_body up t api_key kwargs s =
    let req := mkRequest GET (API_HOST ++ t_path t)%string
                 (build_params t kwargs) (build_headers api_key) 30 in
    let s1 := log_request req s in
    match up req with
    | inl e => (Raise e, s1)
    | inr resp =>
        match http_error_msg resp with
        | EmptyString =>
            match json_outcome resp with
            | inl e => (Raise e, s1)
            | inr j => (Ret j, s1)
            end
        | String c m => (Raise (mkExn HTTPError (String c m)), s1)
        end
    end.
Proof.
  unfold handler_body, bind, requests.get, raise_for_status, requests.json,
    log_request.
  cbv zeta.
  destruct (up _) as [e | resp]; [reflexivity |].
  destruct (http_error_msg resp) as [| c m]; [| reflexivity].
  unfold ret. destruct (json_outcome resp); reflexivity.
Qed.

Lemma handler_run (up : Upstream) (t : Tool) (context : Context)
      (kwargs : Kwargs) (s : State) :
  handler up t context kwargs s =
    let req := outbound_request t context kwargs in
    let s1 := log_request req s in
    match up req with
    | inl e => (Ret (error_envelope e (t_path t)), log_caught t e s1)
    | inr resp =>
        match http_error_msg resp with
        | EmptyString =>
            match json_outcome resp with
            | inl e => (Ret (error_envelope e (t_path t)), log_caught t e s1)
            | inr j => (Ret j, s1)
            end
        | String c m =>
            let e := mkExn HTTPError (String c m) in
            (Ret (error_envelope e (t_path t)), log_caught t e s1)
        end
    end.
Proof.
  unfold handler, try_except. rewrite handler_body_run.
  unfold outbound_request, normalized_query. cbv zeta.
  destruct (up _) as [e | resp]; [apply except_clause_run |].
  destruct (http_error_msg resp) as [| c m]; [| apply except_clause_run].
  destruct (json_outcome resp); [apply except_clause_run | reflexivity].
Qed.

(** Every run issues the one expected call, whatever comes back. *)
Lemma handler_net_log (up : Upstream) (t : Tool) (context : Context)
      (kwargs : Kwargs) (s : State) :
  net_log (snd (handler up t context kwargs s)) =
  net_log s ++ [outbound_request t context kwargs].
Proof.
  rewrite handler_run. cbv zeta.
  destruct (up _) as [e | resp]; [reflexivity |].
  destruct (http_error_msg resp); [| reflexivity].
  destruct (json_outcome resp); reflexivity.
Qed.

(** [raise_for_status] raises exactly on 4xx and 5xx. *)
Lemma http_error_msg_4xx_5xx (resp : Response) :
  (400 <= status_code resp < 600)%Z ->
  http_error_msg resp =
    (str (VInt (status_code resp))
     ++ (if (status_code resp <? 500)%Z then " Client Error: " else " Server Error: ")
     ++ reason resp ++ " for url: " ++ url resp)%string.
Proof.
  intros [Hlo Hhi]. unfold http_error_msg. cbv zeta.
  destruct (status_code resp <? 500)%Z eqn:E.
  - replace (400 <=? status_code resp)%Z with true by (symmetry; apply Z.leb_le; lia).
    reflexivity.
  - rewrite andb_false_r.
    replace (500 <=? status_code resp)%Z with true
      by (symmetry; apply Z.leb_le; apply Z.ltb_ge in E; lia).
    replace (status_code resp <? 600)%Z with true by (symmetry; apply Z.ltb_lt; lia).
    reflexivity.
Qed.

Lemma http_error_msg_other (resp : Response) :
  (status_code resp < 400 \/ 600 <= status_code resp)%Z ->
  http_error_msg resp = "".
Proof.
  intros H. unfold http_error_msg. cbv zeta.
  destruct H as [H | H].
  - replace (400 <=? status_code resp)%Z with false by (symmetry; apply Z.leb_gt; lia).
    replace (500 <=? status_code resp)%Z with false by (symmetry; apply Z.leb_gt; lia).
    reflexivity.
  - replace (status_code resp <? 500)%Z with false by (symmetry; apply Z.ltb_ge; lia).
    replace (status_code resp <? 600)%Z with false by (symmetry; apply Z.ltb_ge; lia).
    rewrite !andb_false_r. reflexivity.
Qed.

Lemma append_nonempty (a b : string) (c : ascii) : (a ++ String c b)%string <> "".
Proof. destruct a; discriminate. Qed.

Lemma http_error_msg_nonempty (resp : Response) :
  (400 <= status_code resp < 600)%Z -> http_error_msg resp <> "".
Proof.
  intros H. rewrite (http_error_msg_4xx_5xx resp H).
  destruct (status_code resp <? 500)%Z; apply append_nonempty.
Qed.

(** The headers of a call made with a usable key, and without one. *)
Lemma build_headers_key (key : string) :
  key <> "" ->
  build_headers (Some key) =
    [("X-CMC_PRO_API_KEY", key);
     ("Authorization", ("Bearer " ++ key)%string);
     ("X-API-Key", key)].
Proof.
  intros Hne. unfold build_headers.
  destruct key as [| c key]; [now elim Hne | reflexivity].
Qed.

Lemma build_headers_no_key (api_key : option string) :
  api_key = None \/ api_key = Some "" -> build_headers api_key = [].
Proof. intros [-> | ->]; reflexivity. Qed.

(** A handler runs to a value. *)
Lemma handler_returns (up : Upstream) (t : Tool) (context : Context)
      (kwargs : Kwargs) (s : State) :
  exists j, fst (handler up t context kwargs s) = Ret j.
Proof.
  rewrite handler_run. cbv zeta.
  destruct (up _) as [e | resp]; [eexists; reflexivity |].
  destruct (http_error_msg resp); [| eexists; reflexivity].
  destruct (json_outcome resp); eexists; reflexivity.
Qed.

(* ------------------------------------------------------------------ *)
(** ** Error handling *)

(** C1. Whatever exception the [try] suite of a handler raises (from the
    outbound call, from [raise_for_status] or from decoding the body; building
    the query raises nothing), the handler returns the dictionary with
    exactly the keys ["error"], holding [str(e)], and ["endpoint"], holding
    the tool's path; and a handler always returns a value, it never raises. *)
Theorem C1_exception_becomes_envelope
        (up : Upstream) (t : Tool) (context : Context) (kwargs : Kwargs)
        (s : State) :
  (forall e s',
      handler_body up t (get_active_api_key context) kwargs s = (Raise e, s') ->
      fst (handler up t context kwargs s) =
        Ret (JObj [("error", JStr (exn_str e)); ("endpoint", JStr (t_path t))]))
  /\ (exists j, fst (handler up t context kwargs s) = Ret j)
  /\ (forall e, fst (handler up t context kwargs s) <> Raise e).
Proof.
  split; [| split].
  - intros e s' Hraise. unfold handler, try_except. cbv zeta.
    rewrite Hraise. reflexivity.
  - rewrite handler_run. cbv zeta.
    destruct (up _) as [e | resp]; [eexists; reflexivity |].
    destruct (http_error_msg resp); [| eexists; reflexivity].
    destruct (json_outcome resp); eexists; reflexivity.
  - intros e. rewrite handler_run. cbv zeta.
    destruct (up _) as [e' | resp]; [discriminate |].
    destruct (http_error_msg resp); [| discriminate].
    destruct (json_outcome resp); discriminate.
Qed.

Lemma C1_witness :
  handler_body upstream_timeout exchange_assets
    (get_active_api_key with_key) [] fresh
  = (Raise read_timeout,
     log_request (outbound_request exchange_assets with_key []) fresh)
  /\ fst (handler upstream_timeout exchange_assets with_key [] fresh) =
       Ret (JObj [("error", JStr "Read timed out. (read timeout=30)");
                  ("endpoint", JStr "/v1/exchange/assets")]).
Proof.
  split.
  - reflexivity.
  - apply (proj1 (C1_exception_becomes_envelope
                    upstream_timeout exchange_assets with_key [] fresh)
             read_timeout
             (log_request (outbound_request exchange_assets with_key []) fresh)).
    reflexivity.
Defined.

(** C5, as the code has it.  When the upstream answers with a 4xx or 5xx
    status, the handler returns the error dictionary; its message is the one
    [raise_for_status] builds, which carries the status code, the reason
    phrase and the URL (not the body), and the decoded body is not what the
    handler returns. *)
Theorem C5_error_status_envelope
        (up : Upstream) (t : Tool) (context : Context) (kwargs : Kwargs)
        (s : State) (resp : Response)
        (Hresp : up (outbound_request t context kwargs) = inr resp)
        (Hstatus : (400 <= status_code resp < 600)%Z) :
  fst (handler up t context kwargs s) =
    Ret (JObj [("error", JStr (http_error_msg resp));
               ("endpoint", JStr (t_path t))])
  /\ http_error_msg resp =
       (str (VInt (status_code resp))
        ++ (if (status_code resp <? 500)%Z
            then " Client Error: " else " Server Error: ")
        ++ reason resp ++ " for url: " ++ url resp)%string
  /\ is_error_envelope
       (JObj [("error", JStr (http_error_msg resp));
              ("endpoint", JStr (t_path t))]).
Proof.
  split; [| split].
  - rewrite handler_run. cbv zeta. rewrite Hresp.
    pose proof (http_error_msg_nonempty resp Hstatus) as Hne.
    destruct (http_error_msg resp) as [| c m]; [now elim Hne | reflexivity].
  - now apply http_error_msg_4xx_5xx.
  - now exists (http_error_msg resp), (t_path t).
Qed.

Lemma C5_witness :
  fst (handler (upstream_answers 429 "Too Many Requests" bitcoin_body)
         key_info with_key [] fresh) =
    Ret (JObj [("error",
                JStr "429 Client Error: Too Many Requests for url: https://pro-api.coinmarketcap.com/v1/key/info");
               ("endpoint", JStr "/v1/key/info")]).
Proof.
  exact (proj1 (C5_error_status_envelope
                  (upstream_answers 429 "Too Many Requests" bitcoin_body)
                  key_info with_key [] fresh
                  {| status_code := 429; reason := "Too Many Requests";
                     url := "https://pro-api.coinmarketcap.com/v1/key/info";
                     json_outcome := inr bitcoin_body |}
                  eq_refl
                  (conj (Zle_bool_imp_le 400 429 eq_refl) eq_refl))).
Defined.

(** A 300 answer with a JSON body comes back as a success. *)
Example status_300_returns_body :
  fst (handler (upstream_answers 300 "Multiple Choices" bitcoin_body)
         exchange_assets with_key [] fresh) = Ret bitcoin_body.
Proof. reflexivity. Qed.

(** C5, as stated, fails: a 300 answer is not a 2xx one, [raise_for_status]
    lets it pass, and the handler returns its decoded body as a success. *)
Lemma C5_counterexample :
  ~ (forall resp,
        upstream_answers 300 "Multiple Choices" bitcoin_body
          (outbound_request exchange_assets with_key []) = inr resp ->
        is_2xx (status_code resp) = false ->
        exists j,
          fst (handler (upstream_answers 300 "Multiple Choices" bitcoin_body)
                 exchange_assets with_key [] fresh) = Ret j
          /\ is_error_envelope j).
Proof.
  intros H.
  destruct (H _ eq_refl eq_refl) as [j [Hret [msg [endpoint Henv]]]].
  vm_compute in Hret. inversion Hret as [Hj]. rewrite <- Hj in Henv.
  discriminate.
Qed.

(** C6. The one call of a handler carries [timeout=30], and when that call
    raises (a time-out, a connection failure) the handler returns the error
    dictionary built from the exception instead of raising. *)
Theorem C6_timeout_30_failure_envelope
        (up : Upstream) (t : Tool) (context : Context) (kwargs : Kwargs)
        (s : State) (e : PyExn)
        (Hfail : up (outbound_request t context kwargs) = inl e) :
  net_log (snd (handler up t context kwargs s)) =
    net_log s ++ [outbound_request t context kwargs]
  /\ req_timeout (outbound_request t context kwargs) = 30%Z
  /\ fst (handler up t context kwargs s) =
       Ret (JObj [("error", JStr (exn_str e)); ("endpoint", JStr (t_path t))]).
Proof.
  split; [apply handler_net_log | split; [reflexivity |]].
  rewrite handler_run. cbv zeta. rewrite Hfail. reflexivity.
Qed.

Lemma C6_witness :
  upstream_timeout (outbound_request listings_new without_key []) = inl read_timeout
  /\ map req_timeout
       (net_log (snd (handler upstream_timeout listings_new without_key [] fresh)))
     = [30%Z]
  /\ fst (handler upstream_timeout listings_new without_key [] fresh) =
       Ret (JObj [("error", JStr "Read timed out. (read timeout=30)");
                  ("endpoint", JStr "/v1/cryptocurrency/listings/new")]).
Proof.
  pose proof (C6_timeout_30_failure_envelope
                upstream_timeout listings_new without_key [] fresh
                read_timeout eq_refl) as [Hlog [_ Hret]].
  split; [reflexivity | split].
  - rewrite Hlog. reflexivity.
  - exact Hret.
Defined.

(* ------------------------------------------------------------------ *)
(** ** The outbound call *)

(** C7. With a key resolved (a non-empty string), the call a handler makes is
    a GET of the tool's path on the API host whose headers are exactly
    [X-CMC_PRO_API_KEY], [Authorization] (as [Bearer <key>]) and [X-API-Key],
    each carrying that key. *)
Theorem C7_key_under_three_headers
        (up : Upstream) (t : Tool) (context : Context) (kwargs : Kwargs)
        (s : State) (key : string)
        (Hkey : get_active_api_key context = Some key)
        (Hnonempty : key <> "") :
  exists req,
    net_log (snd (handler up t context kwargs s)) = net_log s ++ [req]
    /\ req_method req = GET
    /\ req_url req = ("https://pro-api.coinmarketcap.com" ++ t_path t)%string
    /\ req_headers req =
         [("X-CMC_PRO_API_KEY", key);
          ("Authorization", ("Bearer " ++ key)%string);
          ("X-API-Key", key)].
Proof.
  exists (outbound_request t context kwargs).
  split; [apply handler_net_log | split; [reflexivity | split; [reflexivity |]]].
  unfold outbound_request. simpl. rewrite Hkey. now apply build_headers_key.
Qed.

Lemma C7_witness :
  exists req,
    net_log (snd (handler upstream_timeout trending_latest with_key [] fresh)) =
      [req]
    /\ req_method req = GET
    /\ req_url req =
         "https://pro-api.coinmarketcap.com/v1/cryptocurrency/trending/latest"
    /\ req_headers req =
         [("X-CMC_PRO_API_KEY", "k3y");
          ("Authorization", "Bearer k3y");
          ("X-API-Key", "k3y")].
Proof.
  apply (C7_key_under_three_headers
           upstream_timeout trending_latest with_key [] fresh "k3y" eq_refl).
  discriminate.
Defined.







(** C10. With no key resolved ([None] or the empty string) the handler still
    makes its call, with an empty header dictionary. *)
Theorem C10_no_key_no_headers
        (up : Upstream) (t : Tool) (context : Context) (kwargs : Kwargs)
        (s : State)
        (Hno_key : get_active_api_key context = None
                   \/ get_active_api_key context = Some "") :
  exists req,
    net_log (snd (handler up t context kwargs s)) = net_log s ++ [req]
    /\ req_url req = ("https://pro-api.coinmarketcap.com" ++ t_path t)%string
    /\ req_params req = normalized_query t kwargs
    /\ req_headers req = [].
Proof.
  exists (outbound_request t context kwargs).
  split; [apply handler_net_log | split; [reflexivity | split; [reflexivity |]]].
  unfold outbound_request. simpl. now apply build_headers_no_key.
Qed.

Lemma C10_witness :
  exists req,
    net_log (snd (handler (upstream_answers 200 "OK" bitcoin_body)
                    key_info {| active_api_key := Some "" |} [] fresh)) = [req]
    /\ req_url req = "https://pro-api.coinmarketcap.com/v1/key/info"
    /\ req_params req = []
    /\ req_headers req = [].
Proof.
  apply (C10_no_key_no_headers
           (upstream_answers 200 "OK" bitcoin_body)
           key_info {| active_api_key := Some "" |} [] fresh).
  right. reflexivity.
Defined.

(* ------------------------------------------------------------------ *)
(** ** The normalized query *)

Lemma is_none_false (v : PyVal) : is_none v = false <-> v <> VNone.
Proof. destruct v; simpl; split; intros H; congruence. Qed.

Lemma drop_none_In (d : Dict PyVal) (k : string) (v : PyVal) :
  In (k, v) (drop_none d) <-> In (k, v) d /\ v <> VNone.
Proof.
  unfold drop_none. rewrite filter_In. simpl.
  rewrite negb_true_iff, is_none_false. reflexivity.
Qed.

Lemma arg_value_no_kwargs (p : Param) : arg_value [] p = p_default p.
Proof. reflexivity. Qed.

(** Every entry of the query comes from a declared parameter: it holds what
    the literal computes from the bound argument, and that is not [None]. *)
Lemma query_entry (t : Tool) (kwargs : Kwargs) (k : string) (v : PyVal) :
  wf_tool t = true ->
  In (k, v) (normalized_query t kwargs) ->
  exists p,
    In p (t_params t) /\ p_name p = k
    /\ v = eval_expr (p_expr p) (arg_value kwargs p) /\ v <> VNone.
Proof.
  intros Hwf Hin. unfold normalized_query in Hin.
  rewrite (build_params_items t kwargs Hwf) in Hin.
  apply drop_none_In in Hin. destruct Hin as [Hin Hv].
  apply in_map_iff in Hin. destruct Hin as [p [Hitem Hp]].
  unfold param_item in Hitem. inversion Hitem. subst.
  exists p. repeat split; assumption.
Qed.

Lemma names_injective (ps : list Param) (p q : Param) :
  NoDup (map p_name ps) -> In p ps -> In q ps -> p_name p = p_name q -> p = q.
Proof.
  induction ps as [| a ps IH]; simpl; intros Hnd Hp Hq Heq.
  - contradiction.
  - inversion Hnd as [| x l Hnotin Hnd']. subst.
    destruct Hp as [-> | Hp], Hq as [-> | Hq].
    + reflexivity.
    + exfalso. apply Hnotin. rewrite Heq. now apply in_map.
    + exfalso. apply Hnotin. rewrite <- Heq. now apply in_map.
    + now apply IH.
Qed.

(** With no keyword argument, the surviving items are the declared
    defaults. *)
Lemma drop_none_defaults (ps : list Param) :
  forallb wf_param ps = true ->
  drop_none (map (param_item []) ps) =
  flat_map
    (fun p =>
       match p_default p with
       | VNone => []
       | d => [(p_name p, default_value d)]
       end) ps.
Proof.
  induction ps as [| p ps IH]; intros Hwf.
  - reflexivity.
  - cbn [forallb] in Hwf. apply andb_true_iff in Hwf. destruct Hwf as [Hp Hps].
    cbn [map flat_map]. rewrite <- (IH Hps). clear IH Hps.
    unfold param_item at 1. rewrite arg_value_no_kwargs.
    unfold wf_param in Hp.
    destruct (p_expr p); apply andb_true_iff in Hp; destruct Hp as [_ Hd].
    + destruct (p_default p); try reflexivity. discriminate Hd.
    + destruct (p_default p) as [| [|] | | |]; try discriminate Hd; reflexivity.
Qed.

(** C2. Called with no keyword argument, every tool of the catalog builds
    the query that holds exactly its declared defaults: one entry per
    parameter whose default is not [None], in declaration order, holding that
    default (a Boolean one as lowercase text), and no entry for a parameter
    whose default is [None]; so
    [coinmarketcap_id_map] sends [listing_status], [start], [sort] and [aux]
    with their defaults and neither [limit] nor [symbol]. *)
Theorem C2_no_arguments_defaults_only (t : Tool) (Hcat : In t catalog) :
  normalized_query t [] = declared_defaults t
  /\ (forall p,
         In p (t_params t) -> p_default p = VNone ->
         ~ In (p_name p) (keys (normalized_query t [])))
  /\ normalized_query coinmarketcap_id_map [] =
       [("listing_status", VStr "active");
        ("start", VInt 1);
        ("sort", VStr "id");
        ("aux", VStr "platform,first_historical_data,last_historical_data,is_active")]
  /\ dict_get (normalized_query coinmarketcap_id_map []) "limit" = None
  /\ dict_get (normalized_query coinmarketcap_id_map []) "symbol" = None.
Proof.
  pose proof (in_catalog_wf t Hcat) as Hwf.
  split; [| split; [| repeat split]].
  - unfold normalized_query, declared_defaults.
    rewrite (build_params_items t [] Hwf).
    apply drop_none_defaults.
    unfold wf_tool in Hwf. apply andb_true_iff in Hwf. tauto.
  - intros p Hp Hdefault Hkey.
    unfold keys in Hkey. apply in_map_iff in Hkey.
    destruct Hkey as [[k v] [Hk Hin]]. simpl in Hk. subst k.
    destruct (query_entry t [] _ _ Hwf Hin) as [q [Hq [Hname [Hv Hnot_none]]]].
    assert (q = p) as ->
        by (apply (names_injective (t_params t) q p (wf_tool_names t Hwf));
            assumption).
    pose proof (wf_tool_params t p Hwf Hp) as Hwfp.
    unfold wf_param in Hwfp. rewrite arg_value_no_kwargs, Hdefault in Hv.
    destruct (p_expr p).
    + simpl in Hv. contradiction.
    + rewrite Hdefault in Hwfp. simpl in Hwfp.
      rewrite andb_false_r in Hwfp. discriminate.
Qed.

Lemma C2_witness :
  In coinmarketcap_id_map_0es7 catalog
  /\ normalized_query coinmarketcap_id_map_0es7 [] =
       [("start", VInt 1); ("sort", VStr "id"); ("include_metals", VStr "false")].
Proof.
  assert (Hcat : In coinmarketcap_id_map_0es7 catalog)
    by (simpl; right; right; right; left; reflexivity).
  split; [exact Hcat |].
  exact (proj1 (C2_no_arguments_defaults_only coinmarketcap_id_map_0es7 Hcat)).
Defined.

(** C4. In the query of any tool of the catalog, for any keyword arguments,
    no entry holds [None] and every key is the name of a parameter the tool
    declares. *)
Theorem C4_no_none_declared_keys_only
        (t : Tool) (kwargs : Kwargs) (k : string) (v : PyVal)
        (Hcat : In t catalog)
        (Hentry : In (k, v) (normalized_query t kwargs)) :
  v <> VNone /\ In k (declared_names t).
Proof.
  destruct (query_entry t kwargs k v (in_catalog_wf t Hcat) Hentry)
    as [p [Hp [Hname [_ Hv]]]].
  split; [exact Hv |].
  unfold declared_names. rewrite <- Hname. now apply in_map.
Qed.

Lemma C4_witness :
  In ("id", VStr "270")
     (normalized_query exchange_assets [("id", VStr "270"); ("bogus", VNone)])
  /\ VStr "270" <> VNone
  /\ In "id" (declared_names exchange_assets).
Proof.
  assert (Hentry : In ("id", VStr "270")
                      (normalized_query exchange_assets
                         [("id", VStr "270"); ("bogus", VNone)]))
    by (left; reflexivity).
  split; [exact Hentry |].
  apply (C4_no_none_declared_keys_only exchange_assets
           [("id", VStr "270"); ("bogus", VNone)] "id" (VStr "270")).
  - simpl. right. left. reflexivity.
  - exact Hentry.
Defined.





(* ------------------------------------------------------------------ *)
(** ** [quotes_latest] end to end *)

Lemma is_2xx_no_error (resp : Response) :
  is_2xx (status_code resp) = true -> http_error_msg resp = "".
Proof.
  unfold is_2xx. intros H. apply andb_true_iff in H. destruct H as [_ H].
  apply Z.ltb_lt in H. apply http_error_msg_other. lia.
Qed.

(** C9, as the code has it.  [quotes_latest] called with [id="1"] alone
    sends the query that holds [id] and the declared default of [aux], which
    is
    ["num_market_pairs,traffic_score,rank,exchange_score,liquidity_score,effective_liquidity_24h"],
    and nothing else; and when the upstream answers with a 2xx status and a
    body that decodes to [body], the handler returns [body] itself. *)
Theorem C9_quotes_latest_by_id
        (up : Upstream) (context : Context) (s : State)
        (resp : Response) (body : JSON)
        (Hresp : up (outbound_request quotes_latest context [("id", VStr "1")])
                 = inr resp)
        (Hstatus : is_2xx (status_code resp) = true)
        (Hbody : json_outcome resp = inr body) :
  normalized_query quotes_latest [("id", VStr "1")] =
    [("id", VStr "1");
     ("aux", VStr "num_market_pairs,traffic_score,rank,exchange_score,liquidity_score,effective_liquidity_24h")]
  /\ net_log (snd (handler up quotes_latest context [("id", VStr "1")] s)) =
       net_log s ++ [outbound_request quotes_latest context [("id", VStr "1")]]
  /\ fst (handler up quotes_latest context [("id", VStr "1")] s) = Ret body.
Proof.
  split; [reflexivity | split; [apply handler_net_log |]].
  rewrite handler_run. cbv zeta.
  rewrite Hresp, (is_2xx_no_error resp Hstatus), Hbody. reflexivity.
Qed.

Lemma C9_witness :
  fst (handler (upstream_answers 200 "OK" bitcoin_body) quotes_latest with_key
         [("id", VStr "1")] fresh) =
    Ret (JObj [("data", JObj [("1", JObj [("name", JStr "Bitcoin")])])]).
Proof.
  exact (proj2 (proj2
    (C9_quotes_latest_by_id
       (upstream_answers 200 "OK" bitcoin_body) with_key fresh
       {| status_code := 200; reason := "OK";
          url := "https://pro-api.coinmarketcap.com/v1/exchange/quotes/latest";
          json_outcome := inr bitcoin_body |}
       bitcoin_body eq_refl eq_refl eq_refl))).
Defined.

(** C9, as stated, fails: the query does not map [aux] to ["rank"]. *)
Lemma C9_counterexample :
  ~ (forall k,
        dict_get (normalized_query quotes_latest [("id", VStr "1")]) k =
        dict_get [("id", VStr "1"); ("aux", VStr "rank")] k).
Proof.
  intros H. specialize (H "aux"). vm_compute in H. discriminate H.
Qed.

(* ------------------------------------------------------------------ *)
(** ** Looking parameters up in the query *)

Lemma dict_get_absent {V} (d : Dict V) (k : string) :
  ~ In k (keys d) -> dict_get d k = None.
Proof.
  induction d as [| [k' v'] d IH]; simpl; intros Hk.
  - reflexivity.
  - destruct (String.eqb k' k) eqn:E.
    + apply String.eqb_eq in E. exfalso. apply Hk. now left.
    + apply IH. intros Hin. apply Hk. now right.
Qed.

Lemma keys_drop_none_incl (d : Dict PyVal) (k : string) :
  In k (keys (drop_none d)) -> In k (keys d).
Proof.
  unfold keys. rewrite !in_map_iff. intros [[k' v] [Hk Hin]].
  apply drop_none_In in Hin. exists (k', v). tauto.
Qed.

(** With distinct keys, a lookup after the comprehension sees the entry of
    the literal unless it holds [None]. *)
Lemma dict_get_drop_none (d : Dict PyVal) (k : string) :
  NoDup (keys d) ->
  dict_get (drop_none d) k =
    match dict_get d k with
    | Some v => if is_none v then None else Some v
    | None => None
    end.
Proof.
  induction d as [| [k' v'] d IH]; simpl; intros Hnd.
  - reflexivity.
  - inversion Hnd as [| x l Hnotin Hnd']. subst.
    destruct (String.eqb k' k) eqn:E.
    + apply String.eqb_eq in E. subst k'.
      destruct (is_none v') eqn:Hv'; simpl.
      * apply dict_get_absent. intros Hin. apply Hnotin.
        now apply keys_drop_none_incl.
      * now rewrite String.eqb_refl.
    + destruct (is_none v'); simpl; [| rewrite E]; now apply IH.
Qed.

Lemma dict_get_param_items (kwargs : Kwargs) (ps : list Param) (p : Param) :
  NoDup (map p_name ps) -> In p ps ->
  dict_get (map (param_item kwargs) ps) (p_name p) =
  Some (eval_expr (p_expr p) (arg_value kwargs p)).
Proof.
  induction ps as [| a ps IH]; simpl; intros Hnd Hin.
  - contradiction.
  - inversion Hnd as [| x l Hnotin Hnd']. subst.
    destruct Hin as [-> | Hin].
    + now rewrite String.eqb_refl.
    + destruct (String.eqb (p_name a) (p_name p)) eqn:E.
      * apply String.eqb_eq in E. exfalso. apply Hnotin. rewrite E.
        now apply in_map.
      * now apply IH.
Qed.

(** What the query holds under the name of a declared parameter. *)
Lemma query_lookup (t : Tool) (kwargs : Kwargs) (p : Param) :
  wf_tool t = true -> In p (t_params t) ->
  dict_get (normalized_query t kwargs) (p_name p) =
    let v := eval_expr (p_expr p) (arg_value kwargs p) in
    if is_none v then None else Some v.
Proof.
  intros Hwf Hp. unfold normalized_query.
  rewrite (build_params_items t kwargs Hwf).
  pose proof (wf_tool_names t Hwf) as Hnd. unfold declared_names in Hnd.
  rewrite dict_get_drop_none
    by (unfold keys; rewrite param_items_names; exact Hnd).
  now rewrite (dict_get_param_items kwargs (t_params t) p Hnd Hp).
Qed.

Lemma wf_param_raw (p : Param) :
  wf_param p = true -> is_bool_annot (p_annot p) = false -> p_expr p = Raw.
Proof.
  unfold wf_param. intros Hwf Hannot.
  destruct (p_expr p); [reflexivity |].
  rewrite Hannot in Hwf. discriminate.
Qed.

Lemma wf_param_bool (p : Param) :
  wf_param p = true -> is_bool_annot (p_annot p) = true -> p_expr p = StrLower.
Proof.
  unfold wf_param. intros Hwf Hannot.
  destruct (p_expr p); [| reflexivity].
  rewrite Hannot in Hwf. discriminate.
Qed.

(** X1. A value other than [None] passed for a parameter that is not a
    [bool] one reaches the query under the parameter's name as it is,
    whatever default the parameter declares. *)
Theorem explicit_value_overrides_default
        (t : Tool) (kwargs : Kwargs) (p : Param) (v : PyVal)
        (Hcat : In t catalog) (Hp : In p (t_params t))
        (Hannot : is_bool_annot (p_annot p) = false)
        (Hsupplied : dict_get kwargs (p_name p) = Some v)
        (Hv : v <> VNone) :
  dict_get (normalized_query t kwargs) (p_name p) = Some v.
Proof.
  pose proof (in_catalog_wf t Hcat) as Hwf.
  rewrite (query_lookup t kwargs p Hwf Hp). cbv zeta.
  rewrite (wf_param_raw p (wf_tool_params t p Hwf Hp) Hannot).
  unfold arg_value, bound. rewrite Hsupplied. simpl.
  apply is_none_false in Hv. now rewrite Hv.
Qed.

Lemma explicit_value_overrides_default_witness :
  dict_get (normalized_query listings_latest
              [("limit", VInt 5000); ("sort", VStr "volume_24h")]) "limit"
  = Some (VInt 5000).
Proof.
  apply (explicit_value_overrides_default listings_latest
           [("limit", VInt 5000); ("sort", VStr "volume_24h")]
           (param "limit" (Plain TInt) (VInt 100) Raw) (VInt 5000)).
  - simpl. do 8 right. left. reflexivity.
  - simpl. right. left. reflexivity.
  - reflexivity.
  - reflexivity.
  - discriminate.
Defined.

(** X2. [None] passed explicitly for a parameter that is not a [bool] one
    removes it from the query: the declared default is not put back. *)
Theorem explicit_none_drops_parameter
        (t : Tool) (kwargs : Kwargs) (p : Param)
        (Hcat : In t catalog) (Hp : In p (t_params t))
        (Hannot : is_bool_annot (p_annot p) = false)
        (Hsupplied : dict_get kwargs (p_name p) = Some VNone) :
  dict_get (normalized_query t kwargs) (p_name p) = None
  /\ ~ In (p_name p) (keys (normalized_query t kwargs)).
Proof.
  pose proof (in_catalog_wf t Hcat) as Hwf.
  pose proof (wf_param_raw p (wf_tool_params t p Hwf Hp) Hannot) as Hraw.
  split.
  - rewrite (query_lookup t kwargs p Hwf Hp). cbv zeta. rewrite Hraw.
    unfold arg_value, bound. rewrite Hsupplied. reflexivity.
  - intros Hkey. unfold keys in Hkey. apply in_map_iff in Hkey.
    destruct Hkey as [[k v] [Hk Hin]]. simpl in Hk. subst k.
    destruct (query_entry t kwargs _ _ Hwf Hin) as [q [Hq [Hname [Hv Hnn]]]].
    assert (q = p) as ->
        by (apply (names_injective (t_params t) q p (wf_tool_names t Hwf));
            assumption).
    rewrite Hraw in Hv. unfold arg_value, bound in Hv.
    rewrite Hsupplied in Hv. simpl in Hv. contradiction.
Qed.

Lemma explicit_none_drops_parameter_witness :
  dict_get (normalized_query coinmarketcap_id_map [("start", VNone)]) "start"
  = None
  /\ ~ In "start" (keys (normalized_query coinmarketcap_id_map [("start", VNone)])).
Proof.
  apply (explicit_none_drops_parameter coinmarketcap_id_map
           [("start", VNone)] (param "start" (Plain TInt) (VInt 1) Raw)).
  - simpl. left. reflexivity.
  - simpl. right. left. reflexivity.
  - reflexivity.
  - reflexivity.
Defined.

(** X3. A [bool] parameter is in every query: it holds the lowercase text of
    whatever it is bound to, so an explicit [None] is sent as ["none"]
    instead of being dropped. *)
Theorem bool_parameter_always_sent
        (t : Tool) (kwargs : Kwargs) (p : Param)
        (Hcat : In t catalog) (Hp : In p (t_params t))
        (Hannot : is_bool_annot (p_annot p) = true) :
  dict_get (normalized_query t kwargs) (p_name p) =
    Some (VStr (lower (str (arg_value kwargs p))))
  /\ (dict_get kwargs (p_name p) = Some VNone ->
      dict_get (normalized_query t kwargs) (p_name p) = Some (VStr "none")).
Proof.
  pose proof (in_catalog_wf t Hcat) as Hwf.
  pose proof (wf_param_bool p (wf_tool_params t p Hwf Hp) Hannot) as Hexpr.
  assert (Hlookup : dict_get (normalized_query t kwargs) (p_name p) =
                    Some (VStr (lower (str (arg_value kwargs p)))))
    by (rewrite (query_lookup t kwargs p Hwf Hp); cbv zeta; now rewrite Hexpr).
  split; [exact Hlookup |].
  intros Hnone. rewrite Hlookup. unfold arg_value, bound. now rewrite Hnone.
Qed.

Lemma bool_parameter_always_sent_witness :
  dict_get (normalized_query coinmarketcap_id_map_0es7
              [("include_metals", VNone)]) "include_metals"
  = Some (VStr "none").
Proof.
  apply (proj2 (bool_parameter_always_sent coinmarketcap_id_map_0es7
                  [("include_metals", VNone)]
                  (param "include_metals" (Plain TBool) (VBool false) StrLower)
                  (or_intror (or_intror (or_intror (or_introl eq_refl))))
                  (or_intror (or_intror (or_intror (or_introl eq_refl))))
                  eq_refl)).
  reflexivity.
Defined.

Lemma keys_drop_none_items (kwargs : Kwargs) (ps : list Param) :
  keys (drop_none (map (param_item kwargs) ps)) =
  map p_name
    (filter (fun p => negb (is_none (eval_expr (p_expr p) (arg_value kwargs p))))
       ps).
Proof.
  induction ps as [| p ps IH]; [reflexivity |].
  cbn [map]. unfold drop_none in *. cbn [filter]. unfold param_item at 1.
  cbn [snd].
  destruct (negb (is_none (eval_expr (p_expr p) (arg_value kwargs p)))).
  - unfold keys in *. cbn [map fst]. now rewrite IH.
  - exact IH.
Qed.

Lemma NoDup_map_filter {A} (f : A -> string) (keep : A -> bool) (l : list A) :
  NoDup (map f l) -> NoDup (map f (filter keep l)).
Proof.
  induction l as [| a l IH]; simpl; intros Hnd.
  - constructor.
  - inversion Hnd as [| x l' Hnotin Hnd']. subst.
    destruct (keep a); simpl.
    + constructor; [| now apply IH].
      intros Hin. apply Hnotin. apply in_map_iff in Hin.
      destruct Hin as [b [Hb Hin]]. apply filter_In in Hin.
      rewrite <- Hb. apply in_map. tauto.
    + now apply IH.
Qed.

(** X4. The keys of a query are the names of the parameters whose entry is
    not [None], in declaration order, and no key occurs twice. *)
Theorem query_keys_in_declaration_order
        (t : Tool) (kwargs : Kwargs) (Hcat : In t catalog) :
  keys (normalized_query t kwargs) =
    map p_name
      (filter
         (fun p => negb (is_none (eval_expr (p_expr p) (arg_value kwargs p))))
         (t_params t))
  /\ NoDup (keys (normalized_query t kwargs)).
Proof.
  pose proof (in_catalog_wf t Hcat) as Hwf.
  assert (Hkeys : keys (normalized_query t kwargs) =
            map p_name
              (filter
                 (fun p => negb (is_none (eval_expr (p_expr p) (arg_value kwargs p))))
                 (t_params t))).
  { unfold normalized_query. rewrite (build_params_items t kwargs Hwf).
    apply keys_drop_none_items. }
  split; [exact Hkeys |].
  rewrite Hkeys. apply NoDup_map_filter. exact (wf_tool_names t Hwf).
Qed.

Lemma query_keys_in_declaration_order_witness :
  keys (normalized_query quotes_latest
          [("convert", VStr "EUR"); ("slug", VStr "binance")])
  = ["slug"; "convert"; "aux"].
Proof.
  apply (proj1 (query_keys_in_declaration_order quotes_latest
                  [("convert", VStr "EUR"); ("slug", VStr "binance")]
                  ltac:(simpl; do 15 right; left; reflexivity))).
Defined.

(* ------------------------------------------------------------------ *)
(** ** Outcomes of a run *)

(** X5. When the upstream answers with a status outside 400..599 and a body
    that decodes, the handler returns the decoded value as it is, whatever
    JSON value that is, and logs nothing. *)
Theorem success_returns_body_logs_nothing
        (up : Upstream) (t : Tool) (context : Context) (kwargs : Kwargs)
        (s : State) (resp : Response) (body : JSON)
        (Hresp : up (outbound_request t context kwargs) = inr resp)
        (Hstatus : (status_code resp < 400 \/ 600 <= status_code resp)%Z)
        (Hbody : json_outcome resp = inr body) :
  fst (handler up t context kwargs s) = Ret body
  /\ err_log (snd (handler up t context kwargs s)) = err_log s.
Proof.
  rewrite handler_run. cbv zeta.
  rewrite Hresp, (http_error_msg_other resp Hstatus), Hbody.
  split; reflexivity.
Qed.

Lemma success_returns_body_logs_nothing_witness :
  fst (handler (upstream_answers 200 "OK" (JArr [JInt 1; JNull]))
         key_info with_key [] fresh) = Ret (JArr [JInt 1; JNull])
  /\ err_log (snd (handler (upstream_answers 200 "OK" (JArr [JInt 1; JNull]))
                     key_info with_key [] fresh)) = [].
Proof.
  apply (success_returns_body_logs_nothing
           (upstream_answers 200 "OK" (JArr [JInt 1; JNull]))
           key_info with_key [] fresh
           {| status_code := 200; reason := "OK";
              url := "https://pro-api.coinmarketcap.com/v1/key/info";
              json_outcome := inr (JArr [JInt 1; JNull]) |}
           (JArr [JInt 1; JNull]) eq_refl).
  - left. reflexivity.
  - reflexivity.
Defined.

(** X6. When the upstream answers with a status outside 400..599 but the
    body does not decode, the handler returns the error dictionary built
    from the decoding exception. *)
Theorem undecodable_body_becomes_envelope
        (up : Upstream) (t : Tool) (context : Context) (kwargs : Kwargs)
        (s : State) (resp : Response) (e : PyExn)
        (Hresp : up (outbound_request t context kwargs) = inr resp)
        (Hstatus : (status_code resp < 400 \/ 600 <= status_code resp)%Z)
        (Hbody : json_outcome resp = inl e) :
  fst (handler up t context kwargs s) =
    Ret (JObj [("error", JStr (exn_str e)); ("endpoint", JStr (t_path t))]).
Proof.
  rewrite handler_run. cbv zeta.
  rewrite Hresp, (http_error_msg_other resp Hstatus), Hbody. reflexivity.
Qed.

Lemma undecodable_body_becomes_envelope_witness :
  fst (handler
         (fun req =>
            inr {| status_code := 200; reason := "OK"; url := req_url req;
                   json_outcome :=
                     inl (mkExn JSONDecodeError
                            "Expecting value: line 1 column 1 (char 0)") |})
         key_info with_key [] fresh) =
    Ret (JObj [("error", JStr "Expecting value: line 1 column 1 (char 0)");
               ("endpoint", JStr "/v1/key/info")]).
Proof.
  apply (undecodable_body_becomes_envelope
           (fun req =>
              inr {| status_code := 200; reason := "OK"; url := req_url req;
                     json_outcome :=
                       inl (mkExn JSONDecodeError
                              "Expecting value: line 1 column 1 (char 0)") |})
           key_info with_key [] fresh
           {| status_code := 200; reason := "OK";
              url := "https://pro-api.coinmarketcap.com/v1/key/info";
              json_outcome :=
                inl (mkExn JSONDecodeError
                       "Expecting value: line 1 column 1 (char 0)") |}
           (mkExn JSONDecodeError "Expecting value: line 1 column 1 (char 0)")
           eq_refl).
  - left. reflexivity.
  - reflexivity.
Defined.

Lemma handler_body_err_log (up : Upstream) (t : Tool) (api_key : option string)
      (kwargs : Kwargs) (s : State) :
  err_log (snd (handler_body up t api_key kwargs s)) = err_log s.
Proof.
  rewrite handler_body_run. cbv zeta.
  destruct (up _) as [e | resp]; [reflexivity |].
  destruct (http_error_msg resp); [| reflexivity].
  destruct (json_outcome resp); reflexivity.
Qed.

(** X7. A handler whose [try] suite raises [e] adds exactly one line to the
    log, [Error in <tool name>: <str(e)>], after the lines already there;
    the message in the returned dictionary is the one logged. *)
Theorem failure_logs_one_line
        (up : Upstream) (t : Tool) (context : Context) (kwargs : Kwargs)
        (s s' : State) (e : PyExn)
        (Hraise : handler_body up t (get_active_api_key context) kwargs s
                  = (Raise e, s')) :
  err_log (snd (handler up t context kwargs s)) =
    err_log s ++ [("Error in " ++ t_name t ++ ": " ++ exn_str e)%string]
  /\ fst (handler up t context kwargs s) =
       Ret (JObj [("error", JStr (exn_str e)); ("endpoint", JStr (t_path t))]).
Proof.
  pose proof (handler_body_err_log up t (get_active_api_key context) kwargs s)
    as Hlog.
  unfold handler, try_except. cbv zeta. rewrite Hraise in *.
  simpl in Hlog. simpl. rewrite Hlog. split; reflexivity.
Qed.

Lemma failure_logs_one_line_witness :
  err_log (snd (handler upstream_timeout quotes_latest with_key [] fresh)) =
    ["Error in quotes_latest: Read timed out. (read timeout=30)"].
Proof.
  apply (proj1 (failure_logs_one_line
                  upstream_timeout quotes_latest with_key [] fresh
                  (log_request (outbound_request quotes_latest with_key []) fresh)
                  read_timeout eq_refl)).
Defined.

(* ------------------------------------------------------------------ *)
(** ** The catalog as a whole *)

Lemma NoDup_map_injective {A} (f : A -> string) (l : list A) (x y : A) :
  NoDup (map f l) -> In x l -> In y l -> f x = f y -> x = y.
Proof.
  induction l as [| a l IH]; simpl; intros Hnd Hx Hy Heq.
  - contradiction.
  - inversion Hnd as [| z l' Hnotin Hnd']. subst.
    destruct Hx as [-> | Hx], Hy as [-> | Hy].
    + reflexivity.
    + exfalso. apply Hnotin. rewrite Heq. now apply in_map.
    + exfalso. apply Hnotin. rewrite <- Heq. now apply in_map.
    + now apply IH.
Qed.

Lemma catalog_paths_distinct : nodupb (map t_path catalog) = true.
Proof. vm_compute. reflexivity. Qed.

Lemma catalog_names_distinct : nodupb (map t_name catalog) = true.
Proof. vm_compute. reflexivity. Qed.

(** X9. No two tools of the catalog share an endpoint path or a name: the
    ["endpoint"] of an error dictionary, and the name in a log line, each
    point to one tool. *)
Theorem endpoint_identifies_tool
        (t1 t2 : Tool) (H1 : In t1 catalog) (H2 : In t2 catalog)
        (Hsame : t_path t1 = t_path t2 \/ t_name t1 = t_name t2) :
  t1 = t2.
Proof.
  destruct Hsame as [Hpath | Hname].
  - apply (NoDup_map_injective t_path catalog); try assumption.
    apply nodupb_NoDup, catalog_paths_distinct.
  - apply (NoDup_map_injective t_name catalog); try assumption.
    apply nodupb_NoDup, catalog_names_distinct.
Qed.

Lemma endpoint_identifies_tool_witness :
  In quotes_latest catalog /\ quotes_latest = quotes_latest.
Proof.
  assert (H : In quotes_latest catalog)
    by (simpl; do 15 right; left; reflexivity).
  split; [exact H |].
  apply (endpoint_identifies_tool quotes_latest quotes_latest H H).
  left. reflexivity.
Defined.

(* ------------------------------------------------------------------ *)
(** ** Start-up *)

Ltac boot_unfold :=
  unfold Boot.bind, Boot.logger_info, Boot.logger_warning, Boot.logger_error,
    Boot.raise, Boot.ret, Boot.lift;
  cbv beta iota zeta.

Lemma truthy_some (o : option string) :
  truthy o = true -> exists s, o = Some s /\ s <> "".
Proof.
  destruct o as [[| c s] |]; simpl; intros H; try discriminate.
  exists (String c s). split; [reflexivity | discriminate].
Qed.

(** X10. A [PORT] that [int] rejects aborts the configuration with the
    exception of [int], before [SERVER_ADDRESS] is looked at and before
    anything is logged. *)
Theorem configuration_bad_port
        (py_int : string -> PyExn + Z) (env : os.Env)
        (log : list Boot.LogRecord) (e : PyExn)
        (Hport : py_int (os.getenv_or env "PORT" "8000") = inl e) :
  configuration py_int env log = (Raise e, log).
Proof.
  unfold configuration. boot_unfold. rewrite Hport. reflexivity.
Qed.

Lemma configuration_bad_port_witness :
  configuration plain_int [("PORT", "80a"); ("SERVER_ADDRESS", "0xA11CE")] []
  = (Raise (ValueError "invalid literal for int() with base 10"), []).
Proof.
  apply (configuration_bad_port plain_int
           [("PORT", "80a"); ("SERVER_ADDRESS", "0xA11CE")] []).
  reflexivity.
Defined.

(** X11. With a usable [PORT], the configuration raises [ValueError] when
    [SERVER_ADDRESS] is unset or empty, and logs nothing. *)
Theorem configuration_requires_server_address
        (py_int : string -> PyExn + Z) (env : os.Env)
        (log : list Boot.LogRecord) (port : Z)
        (Hport : py_int (os.getenv_or env "PORT" "8000") = inr port)
        (Haddress : os.getenv env "SERVER_ADDRESS" = None
                    \/ os.getenv env "SERVER_ADDRESS" = Some "") :
  configuration py_int env log =
    (Raise (ValueError "SERVER_ADDRESS required for payment protocol"), log).
Proof.
  unfold configuration. boot_unfold. rewrite Hport.
  destruct Haddress as [-> | ->]; reflexivity.
Qed.

Lemma configuration_requires_server_address_witness :
  configuration plain_int [("SERVER_ADDRESS", ""); ("COINMCP7_API_KEY", "k3y")] []
  = (Raise (ValueError "SERVER_ADDRESS required for payment protocol"), []).
Proof.
  apply (configuration_requires_server_address plain_int
           [("SERVER_ADDRESS", ""); ("COINMCP7_API_KEY", "k3y")] [] 8000%Z).
  - reflexivity.
  - right. reflexivity.
Defined.

(** X12. With a usable [PORT] and a non-empty [SERVER_ADDRESS] the
    configuration succeeds whether or not [COINMCP7_API_KEY] is set: the
    stage is upper-cased, the key is kept as found, and a missing or empty
    key costs one warning, logged first. *)
Theorem configuration_succeeds
        (py_int : string -> PyExn + Z) (env : os.Env)
        (log : list Boot.LogRecord) (port : Z) (address : string)
        (Hport : py_int (os.getenv_or env "PORT" "8000") = inr port)
        (Haddress : os.getenv env "SERVER_ADDRESS" = Some address)
        (Hnonempty : address <> "") :
  exists banner,
    configuration py_int env log =
      (Ret {| STAGE := upper (os.getenv_or env "STAGE" "MAINNET");
              PORT := port;
              SERVER_ADDRESS := address;
              API_KEY := os.getenv env "COINMCP7_API_KEY" |},
       log
       ++ (if truthy (os.getenv env "COINMCP7_API_KEY") then []
           else [Boot.mkLog Boot.WARNING
                   "⚠️  COINMCP7_API_KEY not set - payment required for all requests"])
       ++ banner)
    /\ Forall (fun r => Boot.level r = Boot.INFO) banner.
Proof.
  unfold configuration. boot_unfold. rewrite Hport, Haddress.
  destruct address as [| c address]; [now elim Hnonempty |].
  cbn [truthy negb].
  destruct (truthy (os.getenv env "COINMCP7_API_KEY")); cbn [negb];
    boot_unfold; eexists; (split;
      [ rewrite <- ?app_assoc; cbn [app]; reflexivity
      | repeat constructor ]).
Qed.

Lemma configuration_succeeds_witness :
  exists log,
    configuration plain_int [("STAGE", "testnet"); ("SERVER_ADDRESS", "0xA11CE")] []
    = (Ret {| STAGE := "TESTNET"; PORT := 8000; SERVER_ADDRESS := "0xA11CE";
              API_KEY := None |},
       Boot.mkLog Boot.WARNING
         "⚠️  COINMCP7_API_KEY not set - payment required for all requests"
       :: log).
Proof.
  destruct (configuration_succeeds plain_int
              [("STAGE", "testnet"); ("SERVER_ADDRESS", "0xA11CE")] []
              8000%Z "0xA11CE" eq_refl eq_refl
              ltac:(discriminate)) as [banner [Hrun _]].
  exists banner. exact Hrun.
Defined.

(** The two ways [create_app_with_middleware] ends: it raises after logging
    the error, or it returns the application of FastMCP with the CORS and
    payment middleware added, in that order, and the health route. *)
Lemma create_app_outcome
      (Configs : Type) (len : Configs -> Z)
      (extract_payment_configs_from_mcp : string -> Configs)
      (streamable_http_app : App Configs)
      (cfg : Config) (env : os.Env) (log : list Boot.LogRecord) :
  let run :=
    create_app_with_middleware len extract_payment_configs_from_mcp
      streamable_http_app cfg env log in
  if negb (truthy (facilitator_url_of env)) && negb (testing_mode_of env) then
    exists log',
      run =
        (Raise (ValueError "Set FACILITATOR_URL or enable D402_TESTING_MODE=true"),
         log' ++ [Boot.mkLog Boot.ERROR
                    "❌ FACILITATOR_URL required when testing_mode is disabled!"])
  else
    exists log',
      run =
        (Ret {| added_middleware :=
                  (added_middleware streamable_http_app
                   ++ [CORSMiddleware
                         {| allow_origins := ["*"];
                            allow_credentials := true;
                            allow_methods := ["*"];
                            allow_headers := ["*"];
                            expose_headers := ["mcp-session-id"] |}])
                  ++ [D402PaymentMiddleware
                        {| tool_payment_configs :=
                             extract_payment_configs_from_mcp (SERVER_ADDRESS cfg);
                           server_address := SERVER_ADDRESS cfg;
                           requires_auth := true;
                           internal_api_key := API_KEY cfg;
                           testing_mode := testing_mode_of env;
                           facilitator_url := facilitator_url_of env;
                           facilitator_api_key :=
                             os.getenv env "D402_FACILITATOR_API_KEY";
                           server_name := "coinmcp7-mcp-server" |}];
                routes := routes streamable_http_app ++ [("/health", [GET])] |},
         log').
Proof.
  unfold create_app_with_middleware. cbv zeta.
  destruct (facilitator_url_of env) as [[| c u] |];
    destruct (testing_mode_of env);
    cbn [truthy negb andb]; boot_unfold;
    try destruct (is_local_facilitator _);
    eexists; reflexivity.
Qed.

(** X13. [create_app_with_middleware] raises exactly when no facilitator URL
    resolves (both variables unset or empty) and testing mode is off; it
    then raises [ValueError] with the hint to set one of them, and the last
    thing logged is the error line. *)
Theorem create_app_fails_exactly_without_facilitator
        (Configs : Type) (len : Configs -> Z)
        (extract_payment_configs_from_mcp : string -> Configs)
        (streamable_http_app : App Configs)
        (cfg : Config) (env : os.Env) (log : list Boot.LogRecord) :
  (truthy (facilitator_url_of env) = false /\ testing_mode_of env = false ->
   exists log',
     create_app_with_middleware len extract_payment_configs_from_mcp
       streamable_http_app cfg env log =
     (Raise (ValueError "Set FACILITATOR_URL or enable D402_TESTING_MODE=true"),
      log' ++ [Boot.mkLog Boot.ERROR
                 "❌ FACILITATOR_URL required when testing_mode is disabled!"]))
  /\ (forall e log',
         create_app_with_middleware len extract_payment_configs_from_mcp
           streamable_http_app cfg env log = (Raise e, log') ->
         truthy (facilitator_url_of env) = false /\ testing_mode_of env = false).
Proof.
  pose proof (create_app_outcome Configs len extract_payment_configs_from_mcp
                streamable_http_app cfg env log) as H.
  cbv zeta in H.
  destruct (truthy (facilitator_url_of env)), (testing_mode_of env);
    cbn [negb andb] in H; destruct H as [l' Hrun]; split;
    try (intros [? ?]; discriminate);
    try (intros e log' Hraise; rewrite Hrun in Hraise; discriminate).
  - intros _. exists l'. exact Hrun.
  - intros e log' _. split; reflexivity.
Qed.

Lemma create_app_fails_exactly_without_facilitator_witness :
  fst (create_app_with_middleware Z.of_nat (fun _ => 27%nat) sample_app
         sample_config [("FACILITATOR_URL", ""); ("D402_TESTING_MODE", "yes")] [])
  = Raise (ValueError "Set FACILITATOR_URL or enable D402_TESTING_MODE=true").
Proof.
  destruct (proj1 (create_app_fails_exactly_without_facilitator
                     nat Z.of_nat (fun _ => 27%nat) sample_app sample_config
                     [("FACILITATOR_URL", ""); ("D402_TESTING_MODE", "yes")] [])
              (conj eq_refl eq_refl)) as [log' Hrun].
  rewrite Hrun. reflexivity.
Defined.

(** X14. When a facilitator URL resolves or testing mode is on,
    [create_app_with_middleware] returns the FastMCP application with two
    middleware added, CORS (any origin, method and header, credentials
    allowed, [mcp-session-id] exposed) and then the payment middleware, and
    with the [/health] GET route.  The payment middleware is given the
    server address and the API key of the configuration, [requires_auth]
    set, the testing mode and facilitator URL as resolved, and the server
    name [coinmcp7-mcp-server]. *)
Theorem create_app_result
        (Configs : Type) (len : Configs -> Z)
        (extract_payment_configs_from_mcp : string -> Configs)
        (streamable_http_app : App Configs)
        (cfg : Config) (env : os.Env) (log : list Boot.LogRecord)
        (Hready : truthy (facilitator_url_of env) = true
                  \/ testing_mode_of env = true) :
  exists app log',
    create_app_with_middleware len extract_payment_configs_from_mcp
      streamable_http_app cfg env log = (Ret app, log')
    /\ added_middleware app =
         added_middleware streamable_http_app
         ++ [CORSMiddleware
               {| allow_origins := ["*"];
                  allow_credentials := true;
                  allow_methods := ["*"];
                  allow_headers := ["*"];
                  expose_headers := ["mcp-session-id"] |};
             D402PaymentMiddleware
               {| tool_payment_configs :=
                    extract_payment_configs_from_mcp (SERVER_ADDRESS cfg);
                  server_address := SERVER_ADDRESS cfg;
                  requires_auth := true;
                  internal_api_key := API_KEY cfg;
                  testing_mode := testing_mode_of env;
                  facilitator_url := facilitator_url_of env;
                  facilitator_api_key := os.getenv env "D402_FACILITATOR_API_KEY";
                  server_name := "coinmcp7-mcp-server" |}]
    /\ routes app = routes streamable_http_app ++ [("/health", [GET])].
Proof.
  pose proof (create_app_outcome Configs len extract_payment_configs_from_mcp
                streamable_http_app cfg env log) as H.
  cbv zeta in H.
  assert (Hcond : negb (truthy (facilitator_url_of env))
                  && negb (testing_mode_of env) = false)
    by (destruct Hready as [-> | ->]; [reflexivity | apply andb_false_r]).
  rewrite Hcond in H. destruct H as [log' Hrun].
  eexists. exists log'. split; [exact Hrun |].
  split; [| reflexivity].
  cbn [added_middleware]. now rewrite <- app_assoc.
Qed.

Lemma create_app_result_witness :
  exists app log',
    create_app_with_middleware Z.of_nat (fun _ => 27%nat) sample_app
      sample_config env_facilitator [] = (Ret app, log')
    /\ added_middleware app =
         [CORSMiddleware
            {| allow_origins := ["*"];
               allow_credentials := true;
               allow_methods := ["*"];
               allow_headers := ["*"];
               expose_headers := ["mcp-session-id"] |};
          D402PaymentMiddleware
            {| tool_payment_configs := 27%nat;
               server_address := "0xA11CE";
               requires_auth := true;
               internal_api_key := Some "k3y";
               testing_mode := false;
               facilitator_url := Some "http://localhost:9000";
               facilitator_api_key := None;
               server_name := "coinmcp7-mcp-server" |}]
    /\ routes app = [("/mcp", [GET]); ("/health", [GET])].
Proof.
  apply (create_app_result nat Z.of_nat (fun _ => 27%nat) sample_app
           sample_config env_facilitator []).
  left. reflexivity.
Defined.

(** X15. With none of [FACILITATOR_URL], [D402_FACILITATOR_URL] and
    [D402_TESTING_MODE] in the environment, [create_app_with_middleware]
    raises: testing mode is off unless it is switched on. *)
Theorem create_app_bare_environment_fails
        (Configs : Type) (len : Configs -> Z)
        (extract_payment_configs_from_mcp : string -> Configs)
        (streamable_http_app : App Configs)
        (cfg : Config) (env : os.Env) (log : list Boot.LogRecord)
        (Hfac : os.getenv env "FACILITATOR_URL" = None)
        (Hd402 : os.getenv env "D402_FACILITATOR_URL" = None)
        (Hmode : os.getenv env "D402_TESTING_MODE" = None) :
  fst (create_app_with_middleware len extract_payment_configs_from_mcp
         streamable_http_app cfg env log) =
    Raise (ValueError "Set FACILITATOR_URL or enable D402_TESTING_MODE=true").
Proof.
  pose proof (create_app_outcome Configs len extract_payment_configs_from_mcp
                streamable_http_app cfg env log) as H.
  cbv zeta in H.
  assert (Hf : facilitator_url_of env = None)
    by (unfold facilitator_url_of, py_or; rewrite Hfac, Hd402; reflexivity).
  assert (Hm : testing_mode_of env = false).
  { unfold testing_mode_of, os.getenv_or. unfold os.getenv in Hmode.
    rewrite Hmode. reflexivity. }
  rewrite Hf, Hm in H. cbn [truthy negb andb] in H.
  destruct H as [log' Hrun]. rewrite Hrun. reflexivity.
Qed.

Lemma create_app_bare_environment_fails_witness :
  fst (create_app_with_middleware Z.of_nat (fun _ => 27%nat) sample_app
         sample_config env_bare [])
  = Raise (ValueError "Set FACILITATOR_URL or enable D402_TESTING_MODE=true").
Proof.
  apply (create_app_bare_environment_fails nat Z.of_nat (fun _ => 27%nat)
           sample_app sample_config env_bare []); reflexivity.
Defined.

Lemma lower_true_testing_mode (env : os.Env) (v : string) :
  os.getenv env "D402_TESTING_MODE" = Some v -> lower v = "true" ->
  testing_mode_of env = true.
Proof.
  unfold testing_mode_of, os.getenv_or, os.getenv. intros -> ->. reflexivity.
Qed.

(** X16. [D402_TESTING_MODE] switches testing mode on in any letter case
    ([true], [True], [TRUE]); the application is then built without a
    facilitator, the payment middleware is told so, and the bypass is
    logged as a warning. *)
Theorem create_app_testing_mode_any_case
        (Configs : Type) (len : Configs -> Z)
        (extract_payment_configs_from_mcp : string -> Configs)
        (streamable_http_app : App Configs)
        (cfg : Config) (env : os.Env) (log : list Boot.LogRecord) (v : string)
        (Hmode : os.getenv env "D402_TESTING_MODE" = Some v)
        (Htrue : lower v = "true")
        (Hfac : truthy (facilitator_url_of env) = false) :
  exists app log' options,
    create_app_with_middleware len extract_payment_configs_from_mcp
      streamable_http_app cfg env log = (Ret app, log')
    /\ last (added_middleware app) (CORSMiddleware (mkCORS [] false [] [] []))
       = D402PaymentMiddleware options
    /\ testing_mode options = true
    /\ truthy (facilitator_url options) = false
    /\ In (Boot.mkLog Boot.WARNING "⚠️  D402 Testing Mode - Facilitator bypassed")
          log'.
Proof.
  pose proof (lower_true_testing_mode env v Hmode Htrue) as Hm.
  unfold create_app_with_middleware. cbv zeta. rewrite Hm.
  destruct (facilitator_url_of env) as [[| c u] |] eqn:Hf;
    try discriminate Hfac;
    cbn [truthy negb andb]; boot_unfold;
    (eexists; eexists; eexists;
     split; [reflexivity |];
     split; [cbn [added_middleware add_middleware route]; apply last_last |];
     split; [reflexivity |];
     split; [reflexivity |];
     rewrite !in_app_iff; cbn [In]; tauto).
Qed.

Lemma create_app_testing_mode_any_case_witness :
  exists app log' options,
    create_app_with_middleware Z.of_nat (fun _ => 27%nat) sample_app
      sample_config env_testing [] = (Ret app, log')
    /\ last (added_middleware app) (CORSMiddleware (mkCORS [] false [] [] []))
       = D402PaymentMiddleware options
    /\ testing_mode options = true
    /\ truthy (facilitator_url options) = false
    /\ In (Boot.mkLog Boot.WARNING "⚠️  D402 Testing Mode - Facilitator bypassed")
          log'.
Proof.
  apply (create_app_testing_mode_any_case nat Z.of_nat (fun _ => 27%nat)
           sample_app sample_config env_testing [] "True");
    reflexivity.
Defined.

(** X17. The facilitator the payment middleware is given is
    [FACILITATOR_URL] when that is set and not empty, whatever
    [D402_FACILITATOR_URL] holds; the application is then built in either
    testing mode. *)
Theorem facilitator_url_primary
        (Configs : Type) (len : Configs -> Z)
        (extract_payment_configs_from_mcp : string -> Configs)
        (streamable_http_app : App Configs)
        (cfg : Config) (env : os.Env) (log : list Boot.LogRecord) (u : string)
        (Hfac : os.getenv env "FACILITATOR_URL" = Some u)
        (Hnonempty : u <> "") :
  exists app log' options,
    create_app_with_middleware len extract_payment_configs_from_mcp
      streamable_http_app cfg env log = (Ret app, log')
    /\ last (added_middleware app) (CORSMiddleware (mkCORS [] false [] [] []))
       = D402PaymentMiddleware options
    /\ facilitator_url options = Some u
    /\ In (Boot.mkLog Boot.INFO ("🌐 FACILITATOR: " ++ u)%string) log'.
Proof.
  assert (Hf : facilitator_url_of env = Some u).
  { unfold facilitator_url_of, py_or. rewrite Hfac.
    destruct u; [now elim Hnonempty | reflexivity]. }
  unfold create_app_with_middleware. cbv zeta. rewrite Hf.
  destruct u as [| c u]; [now elim Hnonempty |].
  destruct (testing_mode_of env);
    cbn [truthy negb andb]; boot_unfold;
    destruct (is_local_facilitator _);
    (eexists; eexists; eexists;
     split; [reflexivity |];
     split; [cbn [added_middleware add_middleware route]; apply last_last |];
     split; [reflexivity |];
     rewrite !in_app_iff; cbn [In]; tauto).
Qed.

Lemma facilitator_url_primary_witness :
  exists app log' options,
    create_app_with_middleware Z.of_nat (fun _ => 27%nat) sample_app
      sample_config
      [("D402_FACILITATOR_URL", "https://b.example");
       ("FACILITATOR_URL", "https://a.example")] [] = (Ret app, log')
    /\ last (added_middleware app) (CORSMiddleware (mkCORS [] false [] [] []))
       = D402PaymentMiddleware options
    /\ facilitator_url options = Some "https://a.example"
    /\ In (Boot.mkLog Boot.INFO "🌐 FACILITATOR: https://a.example") log'.
Proof.
  apply (facilitator_url_primary nat Z.of_nat (fun _ => 27%nat) sample_app
           sample_config
           [("D402_FACILITATOR_URL", "https://b.example");
            ("FACILITATOR_URL", "https://a.example")] [] "https://a.example").
  - reflexivity.
  - discriminate.
Defined.

(** X18. When [FACILITATOR_URL] is unset or empty, the payment middleware is
    given [D402_FACILITATOR_URL] if that is set and not empty. *)
Theorem facilitator_url_fallback
        (Configs : Type) (len : Configs -> Z)
        (extract_payment_configs_from_mcp : string -> Configs)
        (streamable_http_app : App Configs)
        (cfg : Config) (env : os.Env) (log : list Boot.LogRecord) (u : string)
        (Hfac : os.getenv env "FACILITATOR_URL" = None
                \/ os.getenv env "FACILITATOR_URL" = Some "")
        (Hd402 : os.getenv env "D402_FACILITATOR_URL" = Some u)
        (Hnonempty : u <> "") :
  exists app log' options,
    create_app_with_middleware len extract_payment_configs_from_mcp
      streamable_http_app cfg env log = (Ret app, log')
    /\ last (added_middleware app) (CORSMiddleware (mkCORS [] false [] [] []))
       = D402PaymentMiddleware options
    /\ facilitator_url options = Some u.
Proof.
  assert (Hf : facilitator_url_of env = Some u).
  { unfold facilitator_url_of, py_or. rewrite Hd402.
    destruct Hfac as [-> | ->]; reflexivity. }
  unfold create_app_with_middleware. cbv zeta. rewrite Hf.
  destruct u as [| c u]; [now elim Hnonempty |].
  destruct (testing_mode_of env);
    cbn [truthy negb andb]; boot_unfold;
    destruct (is_local_facilitator _);
    (eexists; eexists; eexists;
     split; [reflexivity |];
     split; [cbn [added_middleware add_middleware route]; apply last_last |];
     reflexivity).
Qed.

Lemma facilitator_url_fallback_witness :
  exists app log' options,
    create_app_with_middleware Z.of_nat (fun _ => 27%nat) sample_app
      sample_config env_facilitator [] = (Ret app, log')
    /\ last (added_middleware app) (CORSMiddleware (mkCORS [] false [] [] []))
       = D402PaymentMiddleware options
    /\ facilitator_url options = Some "http://localhost:9000".
Proof.
  apply (facilitator_url_fallback nat Z.of_nat (fun _ => 27%nat) sample_app
           sample_config env_facilitator [] "http://localhost:9000").
  - right. reflexivity.
  - reflexivity.
  - discriminate.
Defined.
